(** * EuroScaper: the ledger, the extractor and the reconciler of [db_utils.py]

    A shallow embedding of class [EuromilhoesDB] and the properties of its
    reconciliation cycle.

    Conventions of the model.
    - Python [str] values are Rocq strings; a character is read as a code
      point in 0..255.  Code points above 255 are not represented.
    - Python [int] values are [Z].
    - The ledger file is the list of records that [csv.reader] delivers for
      it, a blank line being the empty record; [None] is a file that does
      not exist.  What the program appends is what the reader later delivers
      (the fields written hold no line break), and the file is taken to end
      with a line terminator, as every file written by the program does.
    - Opening, creating and appending to files succeeds; directories can be
      created.
    - The menu of [main] and the methods [view_database], [clear_database]
      and [delete_database] take no part in a reconciliation cycle and are
      left out. *)

From Stdlib Require Import ZArith List String Ascii Bool Lia.
Import ListNotations.

Open Scope string_scope.
Open Scope list_scope.
Open Scope Z_scope.

(** ** Python text primitives *)

Module Text.

Definition code (c : ascii) : Z := Z.of_N (N_of_ascii c).

Definition in_range (lo hi : Z) (c : ascii) : bool :=
  (lo <=? code c) && (code c <=? hi).

Definition is_char (a c : ascii) : bool := Ascii.eqb a c.

(** [str.isspace] on one character: TAB..CR, FS..US, space, NEL, NBSP. *)
Definition isspace (c : ascii) : bool :=
  in_range 9 13 c || in_range 28 32 c || (code c =? 133) || (code c =? 160).

(** Decimal digits (category Nd): only 0..9 below code point 256. *)
Definition isdecimal (c : ascii) : bool := in_range 48 57 c.

(** [str.isdigit] on one character also takes the superscripts 1, 2, 3. *)
Definition isdigit_char (c : ascii) : bool :=
  isdecimal c || (code c =? 178) || (code c =? 179) || (code c =? 185).

(** [str.isdigit]: non-empty and every character a digit. *)
Fixpoint all_chars (p : ascii -> bool) (s : string) : bool :=
  match s with
  | EmptyString => true
  | String c r => p c && all_chars p r
  end.

Definition isdigit (s : string) : bool :=
  match s with
  | EmptyString => false
  | _ => all_chars isdigit_char s
  end.

(** Dropping the characters that satisfy [p] at the left end, at the
    right end. *)
Fixpoint lstrip_by (p : ascii -> bool) (s : string) : string :=
  match s with
  | EmptyString => EmptyString
  | String c r => if p c then lstrip_by p r else s
  end.

Fixpoint rstrip_by (p : ascii -> bool) (s : string) : string :=
  match s with
  | EmptyString => EmptyString
  | String c r =>
      match rstrip_by p r with
      | EmptyString => if p c then EmptyString else String c EmptyString
      | t => String c t
      end
  end.

(** [s.strip()] *)
Definition strip (s : string) : string :=
  rstrip_by isspace (lstrip_by isspace s).

(** [s.split()] : the maximal runs of non-space characters, in order.
    [cur] is the run being read. *)
Fixpoint split_ws_from (cur : string) (s : string) : list string :=
  match s with
  | EmptyString =>
      match cur with EmptyString => [] | _ => [cur] end
  | String c r =>
      if isspace c then
        match cur with
        | EmptyString => split_ws_from EmptyString r
        | _ => cur :: split_ws_from EmptyString r
        end
      else split_ws_from (cur ++ String c EmptyString)%string r
  end.

Definition split_ws (s : string) : list string := split_ws_from EmptyString s.

(** [s.split(sep)] for a non-empty literal [sep]: cut at every occurrence,
    left to right, without overlap.  [skip] counts the characters of a
    matched separator still to be passed over, [cur] is the piece being
    read. *)
Fixpoint split_from (sep : string) (skip : nat) (cur : string) (s : string)
  : list string :=
  match s with
  | EmptyString => [cur]
  | String c r =>
      match skip with
      | S k => split_from sep k cur r
      | O =>
          if prefix sep (String c r)
          then cur ::
               split_from sep (Nat.pred (String.length sep)) EmptyString r
          else split_from sep O (cur ++ String c EmptyString)%string r
      end
  end.

Definition split (sep s : string) : list string :=
  split_from sep O EmptyString s.

(** Number of occurrences of a character. *)
Fixpoint count_char (a : ascii) (s : string) : nat :=
  match s with
  | EmptyString => O
  | String c r => if is_char a c then S (count_char a r) else count_char a r
  end.

(** Decimal digit string of [int(...)]: digits, with single underscores
    allowed between two digits.  [prev] tells whether the previous
    character was a digit. *)
Fixpoint digits_from (acc : Z) (prev : bool) (s : string) : option Z :=
  match s with
  | EmptyString => if prev then Some acc else None
  | String c r =>
      if isdecimal c then digits_from (10 * acc + (code c - 48)) true r
      else if is_char "_" c && prev then digits_from acc false r
      else None
  end.

(** The white space [int] skips at both ends: TAB..CR, space, NEL, NBSP
    (not FS..US). *)
Definition isspace_int (c : ascii) : bool :=
  in_range 9 13 c || (code c =? 32) || (code c =? 133) || (code c =? 160).

(** [int(s)] in base 10; [None] is [ValueError].  (The limit CPython 3.11
    puts on the number of digits, 4300 by default, is not modelled.) *)
Definition int (s : string) : option Z :=
  match rstrip_by isspace_int (lstrip_by isspace_int s) with
  | String "+" r => digits_from 0 false r
  | String "-" r => option_map Z.opp (digits_from 0 false r)
  | t => digits_from 0 false t
  end.

Definition digit_char (k : Z) : ascii := ascii_of_N (Z.to_N (48 + k)).

(** Digits of a non-negative number, most significant first, put in front
    of [acc]. *)
Fixpoint str_nat_from (fuel : nat) (n : Z) (acc : string) : string :=
  let acc' := String (digit_char (n mod 10)) acc in
  match fuel with
  | O => acc'
  | S f => if n <? 10 then acc' else str_nat_from f (n / 10) acc'
  end.

(** [str(n)] for an [int]. *)
Definition str (n : Z) : string :=
  if n <? 0
  then String "-" (str_nat_from (Z.to_nat (Z.log2 (- n))) (- n) EmptyString)
  else str_nat_from (Z.to_nat (Z.log2 n)) n EmptyString.

(** ["%02d" % n] and ["%04d" % n] for [0 <= n] below 100 and 10000. *)
Definition pad2 (n : Z) : string :=
  String (digit_char (n / 10)) (String (digit_char (n mod 10)) EmptyString).

Definition pad4 (n : Z) : string :=
  String (digit_char (n / 1000))
    (String (digit_char ((n / 100) mod 10))
       (String (digit_char ((n / 10) mod 10))
          (String (digit_char (n mod 10)) EmptyString))).

End Text.

(** ** Calendar dates: [datetime.date] and [datetime.strptime] *)

Module Calendar.
Import Text.

Record date := mkdate { year : Z; month : Z; day : Z }.

Definition is_leap (y : Z) : bool :=
  (y mod 4 =? 0) && (negb (y mod 100 =? 0) || (y mod 400 =? 0)).

Definition days_in_month (y m : Z) : Z :=
  if m =? 2 then (if is_leap y then 29 else 28)
  else if (m =? 4) || (m =? 6) || (m =? 9) || (m =? 11) then 30
  else 31.

(** The range check of the [date] constructor (MINYEAR = 1,
    MAXYEAR = 9999). *)
Definition valid (d : date) : bool :=
  (1 <=? year d) && (year d <=? 9999) &&
  (1 <=? month d) && (month d <=? 12) &&
  (1 <=? day d) && (day d <=? days_in_month (year d) (month d)).

(** [date(y, m, d)]; [None] is [ValueError]. *)
Definition make (y m d : Z) : option date :=
  if valid (mkdate y m d) then Some (mkdate y m d) else None.

Definition days_before_year (y : Z) : Z :=
  let p := y - 1 in p * 365 + p / 4 - p / 100 + p / 400.

Definition days_before_month (y m : Z) : Z :=
  fold_right Z.add 0
    (map (fun k => days_in_month y (Z.of_nat k)) (seq 1 (Z.to_nat (m - 1)))).

Definition toordinal (d : date) : Z :=
  days_before_year (year d) + days_before_month (year d) (month d) + day d.

(** [d.weekday()]: Monday is 0. *)
Definition weekday (d : date) : Z := (toordinal d + 6) mod 7.

(** [d.strftime("%A")] in the C locale. *)
Definition strftime_A (d : date) : string :=
  nth (Z.to_nat (weekday d))
    ["Monday"; "Tuesday"; "Wednesday"; "Thursday"; "Friday"; "Saturday";
     "Sunday"] "".

(** [a > b] on dates: the order of the triples (year, month, day). *)
Definition gt (a b : date) : bool :=
  (year b <? year a) ||
  ((year a =? year b) &&
   ((month b <? month a) || ((month a =? month b) && (day b <? day a)))).

(** [str(d)], the ISO form. *)
Definition isoformat (d : date) : string :=
  (pad4 (year d) ++ "-" ++ pad2 (month d) ++ "-" ++ pad2 (day d))%string.

(** [d.strftime("%Y-%m")], the year written on four digits (below year
    1000 the C library of some platforms leaves the zeros out; the field
    plays no part in the cycle). *)
Definition strftime_Ym (d : date) : string :=
  (pad4 (year d) ++ "-" ++ pad2 (month d))%string.

(** The regular expressions [strptime] compiles its directives to.  A
    matcher returns every way to match a prefix, in the order in which a
    backtracking matcher tries them, each with the text left over. *)
Definition Matcher := string -> list (string * string).

Definition pat1 (p : ascii -> bool) : Matcher := fun s =>
  match s with
  | String a r => if p a then [(String a EmptyString, r)] else []
  | _ => []
  end.

Definition pat2 (p q : ascii -> bool) : Matcher := fun s =>
  match s with
  | String a (String b r) =>
      if p a && q b then [(String a (String b EmptyString), r)] else []
  | _ => []
  end.

(** [%d] : 3[0-1]|[1-2]\d|0[1-9]|[1-9]| [1-9] *)
Definition re_d : Matcher := fun s =>
  pat2 (is_char "3") (in_range 48 49) s
  ++ pat2 (in_range 49 50) isdecimal s
  ++ pat2 (is_char "0") (in_range 49 57) s
  ++ pat1 (in_range 49 57) s
  ++ pat2 (is_char " ") (in_range 49 57) s.

(** [%m] : 1[0-2]|0[1-9]|[1-9] *)
Definition re_m : Matcher := fun s =>
  pat2 (is_char "1") (in_range 48 50) s
  ++ pat2 (is_char "0") (in_range 49 57) s
  ++ pat1 (in_range 49 57) s.

(** [%Y] : four decimal digits *)
Definition re_Y : Matcher := fun s =>
  match s with
  | String a (String b (String c (String d r))) =>
      if isdecimal a && isdecimal b && isdecimal c && isdecimal d
      then [(String a (String b (String c (String d EmptyString))), r)]
      else []
  | _ => []
  end.

Definition lit (a : ascii) (s : string) : list string :=
  match s with
  | String c r => if is_char a c then [r] else []
  | _ => []
  end.

(** What [strptime] does with the first match of the expression: the whole
    text must have been consumed, the groups are converted with [int] and
    the date is built.  [None] is [ValueError]. *)
Definition first_match (ms : list (string * string * string * string))
  : option date :=
  match ms with
  | [] => None
  | (gy, gm, gd, rest) :: _ =>
      match rest with
      | EmptyString =>
          match int gy, int gm, int gd with
          | Some y, Some m, Some d => make y m d
          | _, _, _ => None
          end
      | _ => None
      end
  end.

(** [datetime.strptime(s, "%Y-%m-%d").date()] *)
Definition strptime_Ymd (s : string) : option date :=
  first_match
    (flat_map (fun '(gy, s1) =>
       flat_map (fun s2 =>
         flat_map (fun '(gm, s3) =>
           flat_map (fun s4 =>
             map (fun '(gd, s5) => (gy, gm, gd, s5)) (re_d s4))
             (lit "-" s3))
           (re_m s2))
         (lit "-" s1))
       (re_Y s)).

(** [datetime.strptime(s, "%d/%m/%Y").date()] *)
Definition strptime_dmY (s : string) : option date :=
  first_match
    (flat_map (fun '(gd, s1) =>
       flat_map (fun s2 =>
         flat_map (fun '(gm, s3) =>
           flat_map (fun s4 =>
             map (fun '(gy, s5) => (gy, gm, gd, s5)) (re_Y s4))
             (lit "/" s3))
           (re_m s2))
         (lit "/" s1))
       (re_d s)).

End Calendar.

(** ** The world the program runs in *)

Inductive Exn :=
| FileNotFoundError
| StopIteration
| ValueError
| IndexError
| RequestException      (* [requests.get] could not reach the site *)
| LibraryError.         (* any exception raised inside pandas *)

Inductive Res (A : Type) :=
| Ret (a : A)
| Raise (e : Exn).
Arguments Ret {A} a.
Arguments Raise {A} e.

(** One record of the ledger as [csv.reader] yields it. *)
Definition Row := list string.

(** The list [dados] built by [obter_resultados]:
    [[sorteio_numero, data_sorteio, data_sorteio_formatada, *numeros,
      *estrelas, numero_vencedores, sorteio_tipo]].  Positions 0 and 1 are
    the fields [sorteio_numero] and [data_sorteio]. *)
Record Dados := mkDados {
  sorteio_numero : Z;
  data_sorteio : Calendar.date;
  data_sorteio_formatada : string;
  numeros : list string;
  estrelas : list string;
  numero_vencedores : Z;
  sorteio_tipo : string
}.

(** [novo_sorteio[0] = n] *)
Definition set_item0 (n : Z) (d : Dados) : Dados :=
  mkDados n (data_sorteio d) (data_sorteio_formatada d) (numeros d)
    (estrelas d) (numero_vencedores d) (sorteio_tipo d).

(** A data frame of pandas: column names and records. *)
Record Frame := mkFrame {
  columns : list string;
  records : list (list string)
}.

Definition len_frame (df : Frame) : Z := Z.of_nat (List.length (records df)).

(** Lines 98-99, [pd.read_csv] and the normalisation of column DATE, are
    library code: the frame built from the records of the ledger file, or
    the exception raised. *)
Class Pandas := { read_frame : list Row -> Res Frame }.

(** What the program prints, one constructor per [print] call. *)
Inductive Out :=
| CsvNaoEncontrado
| ErroImportar (e : Exn)
| ErroLerCSV (e : Exn)
| NovoSorteioSalvo
| DadosSalvos (d : Dados)
| InfoNaoEncontrada
| TextoOriginal (t : string)
| NumerosExtraidos (ns : list string)
| EstrelasExtraidas (es : list string)
| FormatoIncorreto
| LiInsuficientes
| ListaNaoEncontrada
| DivNaoEncontrada
| DadosFormatados (d : Dados)
| ErroSite (status : Z)
| UltimoSorteioRegistrado (n : Z) (d : option Calendar.date)
| SorteioMaisRecente (n : Z) (d : Calendar.date)
| JaRegistrado
| UltimoRegistro (r : Row).

(** The ledger file, the table [resultados] of the mirror, and the
    standard output (oldest line first). *)
Record World := mkWorld {
  csv : option (list Row);
  db : option Frame;
  stdout : list Out
}.

(** What the lookups of BeautifulSoup find in the page:
    - [data_info]: the text of [span.dataInfo];
    - [bet_middle]: whether the division is there, whether it holds
      [ul.colums], and [get_text(strip=True)] of each [li] of that list;
    - [premio_ul]: the text of each [li.litleCol] of the first
      [ul.colums] of the page. *)
Record Soup := mkSoup {
  data_info : option string;
  bet_middle : option (option (list string));
  premio_ul : option (list string)
}.

(** The answer of [requests.get(self.url)]. *)
Inductive Fetch :=
| NoAnswer
| Response (status_code : Z) (soup : Soup).

(** ** State and exceptions *)

Definition M (A : Type) : Type := World -> Res A * World.

Definition ret {A} (a : A) : M A := fun w => (Ret a, w).

Definition raise {A} (e : Exn) : M A := fun w => (Raise e, w).

Definition bind {A B} (m : M A) (k : A -> M B) : M B := fun w =>
  match m w with
  | (Ret a, w') => k a w'
  | (Raise e, w') => (Raise e, w')
  end.

Notation "x <- m ;; k" := (bind m (fun x => k))
  (at level 61, m at next level, right associativity).
Notation "m ;; k" := (bind m (fun _ => k))
  (at level 61, right associativity).
Notation "' pat <- m ;; k" :=
  (bind m (fun x => match x with pat => k end))
  (at level 61, pat pattern, m at next level, right associativity).

(** [try: body except Exception as e: handler e] *)
Definition try_except {A} (body : M A) (handler : Exn -> M A) : M A := fun w =>
  match body w with
  | (Ret a, w') => (Ret a, w')
  | (Raise e, w') => handler e w'
  end.

Definition print (o : Out) : M unit := fun w =>
  (Ret tt, mkWorld (csv w) (db w) (stdout w ++ [o])).

Definition read_csv_file : M (option (list Row)) := fun w => (Ret (csv w), w).

Definition write_csv_file (rows : list Row) : M unit := fun w =>
  (Ret tt, mkWorld (Some rows) (db w) (stdout w)).

Definition replace_table (df : Frame) : M unit := fun w =>
  (Ret tt, mkWorld (csv w) (Some df) (stdout w)).

(** A library call that returns or raises. *)
Definition call {A} (r : Res A) : M A := fun w => (r, w).

(** [o] or the exception [e] when the value is missing. *)
Definition or_raise {A} (e : Exn) (o : option A) : M A :=
  match o with
  | Some a => ret a
  | None => raise e
  end.

(** ** The ledger store *)

Definition header : Row :=
  ["DRAW_NUMBER"; "DATE"; "MONTH"; "N1"; "N2"; "N3"; "N4"; "N5"; "S1"; "S2";
   "WINNERS"; "TYPE"].

(** The loop of lines 121-123: the last record that is not empty. *)
Fixpoint last_record (ultimo_registro : option Row) (reader : list Row)
  : option Row :=
  match reader with
  | [] => ultimo_registro
  | row :: rest =>
      match row with
      | [] => last_record ultimo_registro rest
      | _ :: _ => last_record (Some row) rest
      end
  end.

Definition LastDraw : Type := Z * option Calendar.date * option Row.

Definition no_draw : LastDraw := (0, None, None).

(** Lines 117-128, the body of the [try]. *)
Definition ler_ultimo_sorteio_body : M LastDraw :=
  file <- read_csv_file ;;
  reader <- or_raise FileNotFoundError file ;;
  match reader with
  | [] => raise StopIteration
  | _ :: rest =>
      match last_record None rest with
      | Some (field0 :: fields) =>
          let ultimo_registro := field0 :: fields in
          draw_number <- or_raise ValueError (Text.int field0) ;;
          field1 <- or_raise IndexError (nth_error ultimo_registro 1) ;;
          data <- or_raise ValueError (Calendar.strptime_Ymd field1) ;;
          ret (draw_number, Some data, Some ultimo_registro)
      | _ => ret no_draw
      end
  end.

Definition ler_ultimo_sorteio : M LastDraw :=
  try_except ler_ultimo_sorteio_body
    (fun e =>
       match e with
       | FileNotFoundError => write_csv_file [header] ;; ret no_draw
       | _ => print (ErroLerCSV e) ;; ret no_draw
       end).

(** What [csv.writer.writerow(dados)] writes: [str] of every field. *)
Definition row_of_dados (d : Dados) : Row :=
  [Text.str (sorteio_numero d); Calendar.isoformat (data_sorteio d);
   data_sorteio_formatada d]
  ++ numeros d ++ estrelas d
  ++ [Text.str (numero_vencedores d); sorteio_tipo d].

(** Opening in mode ['a'] creates the file when it is missing. *)
Definition salvar_novo_sorteio (dados : Dados) : M unit :=
  file <- read_csv_file ;;
  write_csv_file (match file with
                  | Some rows => rows ++ [row_of_dados dados]
                  | None => [row_of_dados dados]
                  end) ;;
  print NovoSorteioSalvo ;;
  print (DadosSalvos dados).

(** ** The mirror store *)

Definition import_from_csv `{Pandas} : M Z :=
  try_except
    (file <- read_csv_file ;;
     match file with
     | None => print CsvNaoEncontrado ;; ret 0
     | Some rows =>
         df <- call (read_frame rows) ;;
         replace_table df ;;
         ret (len_frame df)
     end)
    (fun e => print (ErroImportar e) ;; ret 0).

(** ** The source extractor *)

Definition Sexta_Feira : string := "Sexta-Feira".

(** "Terça-Feira", the c with cedilla being code point 231. *)
Definition Terca_Feira : string :=
  ("Ter" ++ String (ascii_of_nat 231) "a-Feira")%string.

(** Lines 164-168: number and date of the draw out of the header text. *)
Definition parse_data_info (text : string) : M (Z * Calendar.date) :=
  let sorteio_texto := Text.strip text in
  after <- or_raise IndexError
             (nth_error (Text.split "Sorteio: " sorteio_texto) 1) ;;
  sorteio_numero <- or_raise ValueError
             (Text.int (nth 0 (Text.split "/" after) "")) ;;
  data_sorteio <- or_raise IndexError
             (nth_error (Text.split "Data do Sorteio - " sorteio_texto) 1) ;;
  data_sorteio <- or_raise ValueError (Calendar.strptime_dmY data_sorteio) ;;
  ret (sorteio_numero, data_sorteio).

(** Lines 174-202: numbers and stars out of the second list item; [None]
    is the [return None] of the four failure branches. *)
Definition parse_resultados (s : Soup)
  : M (option (list string * list string)) :=
  match bet_middle s with
  | Some (Some todas_li) =>
      if (2 <=? Z.of_nat (List.length todas_li)) then
        let resultado_texto := nth 1 todas_li "" in
        print (TextoOriginal resultado_texto) ;;
        match Text.split "+" resultado_texto with
        | [parte0; parte1] =>
            let numeros :=
              map Text.strip (Text.split_ws (Text.strip parte0)) in
            let estrelas :=
              map Text.strip (Text.split_ws (Text.strip parte1)) in
            print (NumerosExtraidos numeros) ;;
            print (EstrelasExtraidas estrelas) ;;
            ret (Some (numeros, estrelas))
        | _ => print FormatoIncorreto ;; ret None
        end
      else print LiInsuficientes ;; ret None
  | Some None => print ListaNaoEncontrada ;; ret None
  | None => print DivNaoEncontrada ;; ret None
  end.

(** Lines 205-214. *)
Definition parse_vencedores (s : Soup) : M Z :=
  match premio_ul s with
  | Some (li :: _) =>
      let vencedores := Text.strip li in
      if Text.isdigit vencedores
      then or_raise ValueError (Text.int vencedores)
      else ret 0
  | _ => ret 0
  end.

Definition obter_resultados (response : Fetch) : M (option Dados) :=
  match response with
  | NoAnswer => raise RequestException
  | Response status_code soup =>
      if status_code =? 200 then
        match data_info soup with
        | Some text =>
            '(sorteio_numero, data_sorteio) <- parse_data_info text ;;
            resultados <- parse_resultados soup ;;
            match resultados with
            | Some (numeros, estrelas) =>
                numero_vencedores <- parse_vencedores soup ;;
                let dia_semana := Calendar.strftime_A data_sorteio in
                let sorteio_tipo :=
                  if String.eqb dia_semana "Friday"
                  then Sexta_Feira else Terca_Feira in
                let data_sorteio_formatada :=
                  Calendar.strftime_Ym data_sorteio in
                let dados :=
                  mkDados sorteio_numero data_sorteio data_sorteio_formatada
                    numeros estrelas numero_vencedores sorteio_tipo in
                print (DadosFormatados dados) ;;
                ret (Some dados)
            | None => ret None
            end
        | None => print InfoNaoEncontrada ;; ret None
        end
      else print (ErroSite status_code) ;; ret None
  end.

(** ** The reconciler *)

(** [ultima_data is None or novo_sorteio[1] > ultima_data] *)
Definition is_new (ultima_data : option Calendar.date) (novo : Dados) : bool :=
  match ultima_data with
  | None => true
  | Some d => Calendar.gt (data_sorteio novo) d
  end.

Definition atualizar_resultados `{Pandas} (response : Fetch) : M unit :=
  '(ultimo_sorteio, ultima_data, ultimo_registro) <- ler_ultimo_sorteio ;;
  novo_sorteio <- obter_resultados response ;;
  match novo_sorteio with
  | Some novo_sorteio =>
      print (UltimoSorteioRegistrado ultimo_sorteio ultima_data) ;;
      print (SorteioMaisRecente (sorteio_numero novo_sorteio)
               (data_sorteio novo_sorteio)) ;;
      if is_new ultima_data novo_sorteio then
        let novo_sorteio := set_item0 (ultimo_sorteio + 1) novo_sorteio in
        salvar_novo_sorteio novo_sorteio ;;
        import_from_csv ;;
        ret tt
      else
        print JaRegistrado ;;
        match ultimo_registro with
        | Some (_ :: _ as r) => print (UltimoRegistro r)
        | _ => ret tt
        end
  | None => ret tt
  end.

(** Running the program once per answer of the site, each run starting on
    the files the previous one left (a run that ends in an exception
    included). *)
Definition cycles `{Pandas} (responses : list Fetch) (w : World) : World :=
  fold_left (fun w r => snd (atualizar_resultados r w)) responses w.

(** ** Observations used in the statements *)

(** The world with more lines printed. *)
Definition add_out (outs : list Out) (w : World) : World :=
  mkWorld (csv w) (db w) (stdout w ++ outs).

Definition blank_world : World := mkWorld None None [].

(** What [obter_resultados] returns for an answer of the site; the files
    play no part in it (lemma [obter_resultados_fetched]). *)
Definition fetched (response : Fetch) : Res (option Dados) :=
  fst (obter_resultados response blank_world).

(** The triple [ler_ultimo_sorteio] returns; the method never raises
    (lemma [ler_ultimo_sorteio_returns]). *)
Definition last_draw (w : World) : LastDraw :=
  match fst (ler_ultimo_sorteio w) with
  | Ret v => v
  | Raise _ => no_draw
  end.

(** A record that is not the empty one. *)
Definition nonblank (r : Row) : bool :=
  match r with
  | [] => false
  | _ :: _ => true
  end.

(** [a] is strictly later than [b]. *)
Definition later (a b : Calendar.date) : Prop :=
  Calendar.year b < Calendar.year a \/
  (Calendar.year a = Calendar.year b /\
   (Calendar.month b < Calendar.month a \/
    (Calendar.month a = Calendar.month b /\
     Calendar.day b < Calendar.day a))).

(** [m] returns [r] after printing [outs], whatever the files hold. *)
Definition prints {A} (m : M A) (r : Res A) (outs : list Out) : Prop :=
  forall w, m w = (r, add_out outs w).

Definition quiet {A} (m : M A) : Prop := exists r outs, prints m r outs.

(** Records numbered 1, 2, 3, ... in file order, each with a date of the
    calendar in ISO form as second field. *)
Inductive numbered : list Row -> Prop :=
| numbered_nil : numbered []
| numbered_snoc (rows : list Row) (d : Calendar.date) (fields : list string) :
    numbered rows ->
    Calendar.valid d = true ->
    numbered (rows ++ [Text.str (Z.of_nat (S (List.length rows)))
                       :: Calendar.isoformat d :: fields]).

(** The column DRAW_NUMBER of the ledger: the first field of every record
    after the header. *)
Definition draw_number_column (w : World) : list string :=
  match csv w with
  | Some (_ :: rows) => map (fun r => nth 0 r "") rows
  | _ => []
  end.

(** A sample of pandas for running examples: the first record names the
    columns, blank records are skipped, an empty file is an error. *)
Definition sample_pandas : Pandas :=
  {| read_frame := fun rows =>
       match rows with
       | [] => Raise LibraryError
       | cols :: rest =>
           Ret (mkFrame cols
                  (filter (fun r => negb (Nat.eqb (List.length r) 0)) rest))
       end |}.

(** ** Sample pages and ledgers *)

Definition sample_soup (info results : string) : Soup :=
  mkSoup (Some info) (Some (Some ["Chave"; results])) (Some ["3"]).

(** Tuesday 14 May 2024. *)
Definition page_14_may : Fetch :=
  Response 200
    (sample_soup "Sorteio: 039/2024 Data do Sorteio - 14/05/2024"
       "1 2 3 4 5 + 6 7").

Definition novo_14_may : Dados :=
  mkDados 39 (Calendar.mkdate 2024 5 14) "2024-05"
    ["1"; "2"; "3"; "4"; "5"] ["6"; "7"] 3 Terca_Feira.

(** Tuesday 21 May 2024. *)
Definition page_21_may : Fetch :=
  Response 200
    (sample_soup "Sorteio: 041/2024 Data do Sorteio - 21/05/2024"
       "8 9 10 11 12 + 1 2").

Definition novo_21_may : Dados :=
  mkDados 41 (Calendar.mkdate 2024 5 21) "2024-05"
    ["8"; "9"; "10"; "11"; "12"] ["1"; "2"] 3 Terca_Feira.

(** Wednesday 15 May 2024. *)
Definition page_15_may : Fetch :=
  Response 200
    (sample_soup "Sorteio: 040/2024 Data do Sorteio - 15/05/2024"
       "1 2 3 4 5 + 6 7").

Definition novo_15_may : Dados :=
  mkDados 40 (Calendar.mkdate 2024 5 15) "2024-05"
    ["1"; "2"; "3"; "4"; "5"] ["6"; "7"] 3 Terca_Feira.

(** Three numbers and one star. *)
Definition page_short : Fetch :=
  Response 200
    (sample_soup "Sorteio: 039/2024 Data do Sorteio - 14/05/2024" "1 2 3+4").

Definition novo_short : Dados :=
  mkDados 39 (Calendar.mkdate 2024 5 14) "2024-05"
    ["1"; "2"; "3"] ["4"] 3 Terca_Feira.

(** No "+" in the results text. *)
Definition soup_no_plus : Soup :=
  sample_soup "Sorteio: 039/2024 Data do Sorteio - 14/05/2024" "1 2 3 4 5 6 7".

Definition page_no_plus : Fetch := Response 200 soup_no_plus.

Definition page_404 : Fetch := Response 404 (mkSoup None None None).

Definition header_only : World := mkWorld (Some [header]) None [].

Definition row_14_may : Row :=
  ["1"; "2024-05-14"; "2024-05"; "1"; "2"; "3"; "4"; "5"; "6"; "7"; "3";
   Terca_Feira].

Definition ledger_14_may : World := mkWorld (Some [header; row_14_may]) None [].

(** The last record has no number in its first field. *)
Definition ledger_bad_number : World :=
  mkWorld (Some [header; row_14_may; ["abc"; "2024-05-21"]]) None [].

(** A blank line in front of the header. *)
Definition ledger_blank_first : World := mkWorld (Some [[]; header]) None [].

(** Blank lines between and after the records. *)
Definition ledger_blank_lines : World :=
  mkWorld (Some [header; []; row_14_may; []; []]) None [].

(** ** Observations used in the further properties *)

(** The column DATE of the ledger: the second field of every record after
    the header. *)
Definition date_column (w : World) : list string :=
  match csv w with
  | Some (_ :: rows) => map (fun r => nth 1 r "") rows
  | _ => []
  end.

(** Records numbered from 1 whose dates are [ds], each date later than the
    one before; the last argument is the date of the last record. *)
Inductive chronicle
  : list Row -> list Calendar.date -> option Calendar.date -> Prop :=
| chronicle_nil : chronicle [] [] None
| chronicle_snoc (rows : list Row) (ds : list Calendar.date)
    (ultima : option Calendar.date) (d : Calendar.date)
    (fields : list string) :
    chronicle rows ds ultima ->
    Calendar.valid d = true ->
    (forall l, ultima = Some l -> later d l) ->
    chronicle
      (rows ++ [Text.str (Z.of_nat (S (List.length rows)))
                :: Calendar.isoformat d :: fields])
      (ds ++ [d]) (Some d).

(** [ds] in strictly increasing order. *)
Fixpoint increasing (ds : list Calendar.date) : Prop :=
  match ds with
  | [] => True
  | d :: rest => (forall x, In x rest -> later x d) /\ increasing rest
  end.

(** [sep in s]: the text [sep] occurs somewhere in [s]. *)
Fixpoint occurs (sep s : string) : bool :=
  prefix sep s ||
  match s with
  | EmptyString => false
  | String _ r => occurs sep r
  end.

(** ** The mirror file and the menu *)

(** The SQLite file of the mirror: missing, there without the table
    [resultados], or there with the table.  (A file that is not a database
    is not represented.) *)
Inductive Mirror :=
| NoFile
| NoTable
| Table (df : Frame).

Definition table_of (m : Mirror) : option Frame :=
  match m with
  | Table df => Some df
  | _ => None
  end.

(** [df.head()] and [df.tail()]: the first five and the last five records. *)
Definition head_frame (df : Frame) : Frame :=
  mkFrame (columns df) (firstn 5 (records df)).

Definition tail_frame (df : Frame) : Frame :=
  mkFrame (columns df) (skipn (List.length (records df) - 5) (records df)).

(** What the menu and the methods of the mirror print, one constructor per
    [print] or prompt of [input]; [Core] is a line of the methods of the
    cycle. *)
Inductive Line :=
| Core (o : Out)
| BancoNaoEncontrado
| TabelaNaoEncontrada
| InfoBanco
| TotalRegistros (n : Z)
| PrimeirosRegistros
| Head (df : Frame)
| UltimosRegistros
| Tail (df : Frame)
| BancoLimpo
| ArquivoRemovido
| ArquivoNaoEncontrado
| MenuTitulo
| MenuItem (n : Z)
| PerguntaOpcao
| PerguntaLimpar
| PerguntaApagar
| Importados (n : Z)
| Saindo
| OpcaoInvalida.

Record Disk := mkDisk {
  ledger_file : option (list Row);
  mirror_file : Mirror;
  screen : list Line
}.

Definition show (ls : list Line) (d : Disk) : Disk :=
  mkDisk (ledger_file d) (mirror_file d) (screen d ++ ls).

Definition set_mirror (m : Mirror) (d : Disk) : Disk :=
  mkDisk (ledger_file d) m (screen d).

(** Running a method of the cycle on the disk.  [sqlite3.connect] creates
    the mirror file when the table is written, and no method of the cycle
    removes a table. *)
Definition on_disk {A} (m : M A) (d : Disk) : Res A * Disk :=
  let '(r, w) :=
    m (mkWorld (ledger_file d) (table_of (mirror_file d)) []) in
  (r,
   mkDisk (csv w)
     (match db w with
      | Some df => Table df
      | None => mirror_file d
      end)
     (screen d ++ map Core (stdout w))).

Definition view_database (d : Disk) : Disk :=
  match mirror_file d with
  | NoFile => show [BancoNaoEncontrado] d
  | NoTable => show [TabelaNaoEncontrada] d
  | Table df =>
      show [InfoBanco; TotalRegistros (len_frame df); PrimeirosRegistros;
            Head (head_frame df); UltimosRegistros; Tail (tail_frame df)] d
  end.

(** [DROP TABLE IF EXISTS resultados] on a file that exists. *)
Definition clear_database (d : Disk) : Disk :=
  match mirror_file d with
  | NoFile => show [BancoNaoEncontrado] d
  | _ => show [BancoLimpo] (set_mirror NoTable d)
  end.

Definition delete_database (d : Disk) : Disk :=
  match mirror_file d with
  | NoFile => show [ArquivoNaoEncontrado] d
  | _ => show [ArquivoRemovido] (set_mirror NoFile d)
  end.

(** [c.lower()] for a code point below 256. *)
Definition lower_char (c : ascii) : ascii :=
  if Text.in_range 65 90 c || Text.in_range 192 214 c
     || Text.in_range 216 222 c
  then ascii_of_N (N_of_ascii c + 32)
  else c.

Fixpoint lower (s : string) : string :=
  match s with
  | EmptyString => EmptyString
  | String c r => String (lower_char c) (lower r)
  end.

(** How the loop of [main] ends: option 6, an exception that no method
    caught, or [EOFError] when [input] finds nothing more to read. *)
Inductive Ending :=
| Quit
| Uncaught (e : Exn)
| EndOfInput.

Definition menu : list Line :=
  [MenuTitulo; MenuItem 1; MenuItem 2; MenuItem 3; MenuItem 4; MenuItem 5;
   MenuItem 6; PerguntaOpcao].

(** The loop of [main]: [inputs] are the lines typed, [site k] is the
    answer of the site to the request number [k]. *)
Fixpoint main_loop `{Pandas} (inputs : list string) (site : nat -> Fetch)
    (k : nat) (d : Disk) : Ending * Disk :=
  let d := show menu d in
  match inputs with
  | [] => (EndOfInput, d)
  | opcao :: rest =>
      if String.eqb opcao "1" then
        main_loop rest site k (view_database d)
      else if String.eqb opcao "2" then
        let d := show [PerguntaLimpar] d in
        match rest with
        | [] => (EndOfInput, d)
        | confirma :: rest =>
            if String.eqb (lower confirma) "s"
            then main_loop rest site k (clear_database d)
            else main_loop rest site k d
        end
      else if String.eqb opcao "3" then
        let d := show [PerguntaApagar] d in
        match rest with
        | [] => (EndOfInput, d)
        | confirma :: rest =>
            if String.eqb (lower confirma) "s"
            then main_loop rest site k (delete_database d)
            else main_loop rest site k d
        end
      else if String.eqb opcao "4" then
        match on_disk import_from_csv d with
        | (Ret num_records, d) =>
            main_loop rest site k (show [Importados num_records] d)
        | (Raise e, d) => (Uncaught e, d)
        end
      else if String.eqb opcao "5" then
        match on_disk (atualizar_resultados (site k)) d with
        | (Ret _, d) => main_loop rest site (S k) d
        | (Raise e, d) => (Uncaught e, d)
        end
      else if String.eqb opcao "6" then
        (Quit, show [Saindo] d)
      else
        main_loop rest site k (show [OpcaoInvalida] d)
  end.

Definition main `{Pandas} (inputs : list string) (site : nat -> Fetch)
    (d : Disk) : Ending * Disk :=
  main_loop inputs site 0 d.

(** ** More samples *)

(** A header text without the marker "Sorteio: ". *)
Definition page_no_marker : Fetch :=
  Response 200
    (sample_soup "Resultados de 14/05/2024" "1 2 3 4 5 + 6 7").

(** The page of 14 May with another first item and a third item. *)
Definition soup_more_items : Soup :=
  mkSoup (Some "Sorteio: 039/2024 Data do Sorteio - 14/05/2024")
    (Some (Some ["Ordem de sa" ; "1 2 3 4 5 + 6 7"; "8 9"]))
    (Some ["3"]).

(** A ledger file without any line. *)
Definition ledger_no_line : World := mkWorld (Some []) None [].

(** The site answers the page of 14 May, then the page of 21 May, then
    nothing. *)
Definition site_may (k : nat) : Fetch :=
  match k with
  | O => page_14_may
  | S O => page_21_may
  | _ => NoAnswer
  end.

Definition frame_14_may : Frame := mkFrame header [row_14_may].

Definition disk_14_may : Disk :=
  mkDisk (Some [header; row_14_may]) (Table frame_14_may) [].

(** * Properties *)

Example split_plus_sample :
  Text.split "+" "1 2 3 4 5 + 6 7" = ["1 2 3 4 5 "; " 6 7"].
Proof. reflexivity. Qed.

Example split_multi_sample :
  Text.split "Sorteio: " "Sorteio: 039/2024 Data do Sorteio - 14/05/2024"
  = [""; "039/2024 Data do Sorteio - 14/05/2024"].
Proof. reflexivity. Qed.

Example split_ws_sample : Text.split_ws "  1 2  33 " = ["1"; "2"; "33"].
Proof. reflexivity. Qed.

Example int_samples :
  Text.int " 039 " = Some 39 /\ Text.int "DRAW_NUMBER" = None /\
  Text.int "-7" = Some (-7) /\ Text.int "1_0" = Some 10 /\ Text.int "" = None.
Proof. repeat split; reflexivity. Qed.

Example str_samples :
  Text.str 0 = "0" /\ Text.str 10 = "10" /\ Text.str 2024 = "2024" /\
  Text.str (-15) = "-15" /\ Text.pad4 7 = "0007" /\ Text.pad2 5 = "05".
Proof. repeat split; reflexivity. Qed.

Example strptime_samples :
  Calendar.strptime_Ymd "2024-05-14" = Some (Calendar.mkdate 2024 5 14) /\
  Calendar.strptime_Ymd "2024-5-1" = Some (Calendar.mkdate 2024 5 1) /\
  Calendar.strptime_Ymd "2023-02-29" = None /\
  Calendar.strptime_Ymd "2024-05-141" = None /\
  Calendar.strptime_Ymd "14/05/2024" = None /\
  Calendar.strptime_dmY "14/05/2024" = Some (Calendar.mkdate 2024 5 14) /\
  Calendar.strptime_dmY "1/12/2024" = Some (Calendar.mkdate 2024 12 1).
Proof. repeat split; reflexivity. Qed.

Example weekday_samples :
  Calendar.strftime_A (Calendar.mkdate 2024 5 14) = "Tuesday" /\
  Calendar.strftime_A (Calendar.mkdate 2024 5 17) = "Friday" /\
  Calendar.strftime_A (Calendar.mkdate 2024 5 15) = "Wednesday" /\
  Calendar.toordinal (Calendar.mkdate 1 1 1) = 1 /\
  Calendar.isoformat (Calendar.mkdate 987 5 4) = "0987-05-04".
Proof. repeat split; reflexivity. Qed.

(** ** Reading the ledger *)

Lemma ler_ultimo_sorteio_eq (w : World) :
  ler_ultimo_sorteio w =
  match csv w with
  | None => (Ret no_draw, mkWorld (Some [header]) (db w) (stdout w))
  | Some [] => (Ret no_draw, add_out [ErroLerCSV StopIteration] w)
  | Some (_ :: rest) =>
      match last_record None rest with
      | Some (field0 :: fields) =>
          match Text.int field0 with
          | None => (Ret no_draw, add_out [ErroLerCSV ValueError] w)
          | Some n =>
              match nth_error (field0 :: fields) 1 with
              | None => (Ret no_draw, add_out [ErroLerCSV IndexError] w)
              | Some field1 =>
                  match Calendar.strptime_Ymd field1 with
                  | None => (Ret no_draw, add_out [ErroLerCSV ValueError] w)
                  | Some d => (Ret (n, Some d, Some (field0 :: fields)), w)
                  end
              end
          end
      | _ => (Ret no_draw, w)
      end
  end.
Proof.
  destruct w as [c d o].
  unfold ler_ultimo_sorteio, try_except, ler_ultimo_sorteio_body. cbn.
  destruct c as [[|hd rest]|]; cbn; try reflexivity.
  destruct (last_record None rest) as [[|f0 fs]|]; cbn; try reflexivity.
  destruct (Text.int f0); cbn; try reflexivity.
  destruct fs as [|f1 fs]; cbn; try reflexivity.
  destruct (Calendar.strptime_Ymd f1); cbn; reflexivity.
Qed.

(** Case analysis along the branches of [ler_ultimo_sorteio_eq]. *)
Ltac ler_cases w :=
  rewrite ?ler_ultimo_sorteio_eq;
  destruct w as [[[|? ?rest]|] ?d ?o]; cbn;
  [ | destruct (last_record None rest) as [[|?f0 [|?f1 ?fs]]|]; cbn;
      [ | destruct (Text.int f0); cbn
        | destruct (Text.int f0); cbn;
          [ destruct (Calendar.strptime_Ymd f1); cbn | ]
        | ]
    | ].

Lemma ler_ultimo_sorteio_returns (w : World) :
  fst (ler_ultimo_sorteio w) = Ret (last_draw w).
Proof.
  unfold last_draw. ler_cases w; reflexivity.
Qed.

(** Reading leaves the mirror alone, and the ledger too unless it has to
    create it. *)
Lemma ler_ultimo_sorteio_files (w : World) :
  db (snd (ler_ultimo_sorteio w)) = db w /\
  csv (snd (ler_ultimo_sorteio w)) =
    Some (match csv w with Some rows => rows | None => [header] end).
Proof.
  ler_cases w; split; reflexivity.
Qed.

Lemma last_record_some (u : Row) (rows : list Row) :
  exists r, last_record (Some u) rows = Some r.
Proof.
  revert u; induction rows as [|row rest IH]; intros u; cbn.
  - now exists u.
  - destruct row; auto.
Qed.

(** The loop keeps the last record of those that are not blank. *)
Lemma last_record_filter (u : option Row) (rows : list Row) :
  last_record u rows = last (map Some (filter nonblank rows)) u.
Proof.
  revert u; induction rows as [|row rest IH]; intros u; [reflexivity|].
  destruct row as [|f fs].
  - cbn. apply IH.
  - change (last_record u ((f :: fs) :: rest))
      with (last_record (Some (f :: fs)) rest).
    rewrite IH. cbn [filter nonblank map].
    remember (map Some (filter nonblank rest)) as l eqn:E. clear E IH.
    destruct l as [|x l]; [reflexivity|].
    cbn [last]. revert x. induction l as [|y l IHl]; intros x; [reflexivity|].
    cbn [last] in *. apply IHl.
Qed.

Lemma last_record_nonblank (u : option Row) (rows : list Row) (r : Row) :
  last_record u rows = Some r -> u = Some r \/ nonblank r = true.
Proof.
  revert u; induction rows as [|row rest IH]; intros u; cbn.
  - auto.
  - destruct row as [|f fs].
    + apply IH.
    + intros H. apply IH in H. destruct H as [H|H]; [|auto].
      injection H as <-. now right.
Qed.

(** ** Running the combinators *)

Lemma bind_run {A B} (m : M A) (k : A -> M B) (w : World) :
  bind m k w =
  match m w with
  | (Ret a, w') => k a w'
  | (Raise e, w') => (Raise e, w')
  end.
Proof. reflexivity. Qed.

Lemma print_run (o : Out) (w : World) : print o w = (Ret tt, add_out [o] w).
Proof. reflexivity. Qed.

(** ** Computations that only print *)

Lemma add_out_nil (w : World) : add_out [] w = w.
Proof. destruct w; unfold add_out; cbn. now rewrite app_nil_r. Qed.

Lemma add_out_app (a b : list Out) (w : World) :
  add_out b (add_out a w) = add_out (a ++ b) w.
Proof. unfold add_out; cbn. now rewrite app_assoc. Qed.

Lemma quiet_ret {A} (a : A) : quiet (ret a).
Proof. exists (Ret a), []. intros w. now rewrite add_out_nil. Qed.

Lemma quiet_raise {A} (e : Exn) : quiet (@raise A e).
Proof. exists (Raise e), []. intros w. now rewrite add_out_nil. Qed.

Lemma quiet_print (o : Out) : quiet (print o).
Proof. exists (Ret tt), [o]. intros w. reflexivity. Qed.

Lemma quiet_or_raise {A} (e : Exn) (o : option A) : quiet (or_raise e o).
Proof. destruct o; [apply quiet_ret | apply quiet_raise]. Qed.

Lemma quiet_bind {A B} (m : M A) (k : A -> M B) :
  quiet m -> (forall a, quiet (k a)) -> quiet (bind m k).
Proof.
  intros (r & o1 & Hm) Hk. destruct r as [a|e].
  - destruct (Hk a) as (r2 & o2 & Hk2).
    exists r2, (o1 ++ o2). intros w. unfold bind.
    rewrite Hm, Hk2. now rewrite add_out_app.
  - exists (Raise e), o1. intros w. unfold bind. now rewrite Hm.
Qed.

Ltac quiet_step :=
  first [ apply quiet_bind; [|intros ?]
        | apply quiet_ret | apply quiet_raise | apply quiet_print
        | apply quiet_or_raise ].

Lemma quiet_parse_data_info (text : string) : quiet (parse_data_info text).
Proof. unfold parse_data_info. repeat quiet_step. Qed.

Lemma quiet_parse_resultados (s : Soup) : quiet (parse_resultados s).
Proof.
  unfold parse_resultados.
  destruct (bet_middle s) as [[lis|]|]; [|repeat quiet_step..].
  destruct (2 <=? _); [|repeat quiet_step].
  quiet_step; [quiet_step|].
  destruct (Text.split "+" (nth 1 lis "")) as [|p0 [|p1 [|p2 ps]]];
    repeat quiet_step.
Qed.

Lemma quiet_parse_vencedores (s : Soup) : quiet (parse_vencedores s).
Proof.
  unfold parse_vencedores.
  destruct (premio_ul s) as [[|li lis]|]; try apply quiet_ret.
  destruct (Text.isdigit _); repeat quiet_step.
Qed.

Lemma quiet_obter_resultados (f : Fetch) : quiet (obter_resultados f).
Proof.
  destruct f as [|status soup]; cbn; [apply quiet_raise|].
  destruct (status =? 200); [|repeat quiet_step].
  destruct (data_info soup) as [text|]; [|repeat quiet_step].
  quiet_step; [apply quiet_parse_data_info|].
  destruct a as [n d].
  quiet_step; [apply quiet_parse_resultados|].
  destruct a as [[ns es]|]; [|apply quiet_ret].
  quiet_step; [apply quiet_parse_vencedores|].
  repeat quiet_step.
Qed.

(** The extractor returns [fetched f] and only prints. *)
Lemma obter_resultados_fetched (f : Fetch) :
  exists outs, forall w, obter_resultados f w = (fetched f, add_out outs w).
Proof.
  destruct (quiet_obter_resultados f) as (r & outs & H).
  exists outs. intros w. unfold fetched. now rewrite !H.
Qed.

(** ** Appending and mirroring *)

Lemma salvar_novo_sorteio_eq (d : Dados) (w : World) :
  salvar_novo_sorteio d w =
  (Ret tt,
   mkWorld (Some (match csv w with
                  | Some rows => rows ++ [row_of_dados d]
                  | None => [row_of_dados d]
                  end))
     (db w) (stdout w ++ [NovoSorteioSalvo; DadosSalvos d])).
Proof.
  destruct w as [c d0 o].
  unfold salvar_novo_sorteio, bind, read_csv_file, write_csv_file, print.
  cbn [csv db stdout]. now rewrite <- app_assoc.
Qed.

Section Mirror.
Context `{Pandas}.

Lemma import_from_csv_eq (w : World) :
  import_from_csv w =
  match csv w with
  | None => (Ret 0, add_out [CsvNaoEncontrado] w)
  | Some rows =>
      match read_frame rows with
      | Ret df => (Ret (len_frame df), mkWorld (csv w) (Some df) (stdout w))
      | Raise e => (Ret 0, add_out [ErroImportar e] w)
      end
  end.
Proof.
  destruct w as [[rows|] d o]; unfold import_from_csv, try_except; cbn;
    [|reflexivity].
  unfold call. destruct (read_frame rows); reflexivity.
Qed.

Lemma import_from_csv_csv (w : World) :
  csv (snd (import_from_csv w)) = csv w.
Proof.
  rewrite import_from_csv_eq.
  destruct (csv w) eqn:E; [destruct (read_frame l)|]; cbn; auto.
Qed.

Lemma import_from_csv_returns (w : World) :
  exists n, fst (import_from_csv w) = Ret n.
Proof.
  rewrite import_from_csv_eq.
  destruct (csv w); [destruct (read_frame l)|]; cbn; eauto.
Qed.

Lemma import_from_csv_stdout (w : World) :
  exists outs, stdout (snd (import_from_csv w)) = stdout w ++ outs.
Proof.
  rewrite import_from_csv_eq.
  destruct (csv w); [destruct (read_frame l)|]; cbn; eauto.
  exists []. now rewrite app_nil_r.
Qed.

(** The cycle, branch by branch. *)
Lemma atualizar_resultados_eq (f : Fetch) (w : World) :
  exists outs,
    atualizar_resultados f w =
    let w1 := add_out outs (snd (ler_ultimo_sorteio w)) in
    let '(ultimo_sorteio, ultima_data, ultimo_registro) := last_draw w in
    match fetched f with
    | Raise e => (Raise e, w1)
    | Ret None => (Ret tt, w1)
    | Ret (Some novo) =>
        let w2 :=
          add_out [UltimoSorteioRegistrado ultimo_sorteio ultima_data;
                   SorteioMaisRecente (sorteio_numero novo)
                     (data_sorteio novo)] w1 in
        if is_new ultima_data novo then
          let novo' := set_item0 (ultimo_sorteio + 1) novo in
          (Ret tt,
           snd (import_from_csv (snd (salvar_novo_sorteio novo' w2))))
        else
          (Ret tt,
           add_out (JaRegistrado ::
                    match ultimo_registro with
                    | Some (_ :: _ as r) => [UltimoRegistro r]
                    | _ => []
                    end) w2)
    end.
Proof.
  destruct (obter_resultados_fetched f) as (outs & Hf).
  exists outs. unfold atualizar_resultados.
  pose proof (ler_ultimo_sorteio_returns w) as Hr.
  rewrite bind_run.
  destruct (ler_ultimo_sorteio w) as [r w1] eqn:E. cbn [fst snd] in *.
  subst r. destruct (last_draw w) as [[n d] r].
  rewrite bind_run, Hf.
  destruct (fetched f) as [[novo|]|e]; cbn zeta; try reflexivity.
  rewrite bind_run, print_run, bind_run, print_run, add_out_app.
  cbn [app]. destruct (is_new d novo).
  - rewrite bind_run.
    destruct (salvar_novo_sorteio _ _) as [[[]|e] w3] eqn:E3;
      [|rewrite salvar_novo_sorteio_eq in E3; discriminate].
    rewrite bind_run. cbn [snd].
    pose proof (import_from_csv_returns w3) as (z & Hz).
    destruct (import_from_csv w3) as [r4 w4]. cbn [fst snd] in *.
    subst r4. reflexivity.
  - rewrite bind_run, print_run. cbv beta iota. rewrite add_out_app.
    cbn [app]. destruct r as [[|f0 fs]|]; unfold ret;
      rewrite ?print_run, ?add_out_app; reflexivity.
Qed.

End Mirror.

Lemma gt_later (a b : Calendar.date) : Calendar.gt a b = true <-> later a b.
Proof. unfold Calendar.gt, later. lia. Qed.

Lemma ler_ultimo_sorteio_stdout (w : World) :
  exists outs, stdout (snd (ler_ultimo_sorteio w)) = stdout w ++ outs.
Proof.
  ler_cases w; try (now exists []; rewrite app_nil_r); eauto.
Qed.

(** ** Blank and malformed records *)

Lemma filter_nonblank_twice (rows : list Row) :
  filter nonblank (filter nonblank rows) = filter nonblank rows.
Proof.
  induction rows as [|r rows IH]; [reflexivity|].
  cbn. destruct (nonblank r) eqn:E; cbn; rewrite ?E, IH; reflexivity.
Qed.

Lemma last_some_nonblank (rows : list Row) (r : Row) :
  last (map Some (filter nonblank rows)) None = Some r ->
  exists field0 fields, r = field0 :: fields.
Proof.
  rewrite <- last_record_filter. intros L.
  apply last_record_nonblank in L. destruct L as [L|L]; [discriminate|].
  destruct r as [|f0 fs]; [discriminate|]. eauto.
Qed.

(** C4 (amended). When the last record of the ledger that is not blank
    has a first field that [int] rejects, or lacks a second field that
    [strptime] accepts in the form year-month-day, the read catches the
    exception, prints the error and returns (0, None, None): no earlier
    record is returned in its place, and no exception reaches the caller. *)
Theorem malformed_last_row_caught (w : World) (hd : Row) (rows : list Row)
    (r : Row)
    (Hw : csv w = Some (hd :: rows))
    (Hr : last (map Some (filter nonblank rows)) None = Some r)
    (Hbad : Text.int (nth 0 r "") = None \/
            forall field1, nth_error r 1 = Some field1 ->
                           Calendar.strptime_Ymd field1 = None) :
  exists e,
    (e = ValueError \/ e = IndexError) /\
    ler_ultimo_sorteio w = (Ret (0, None, None), add_out [ErroLerCSV e] w).
Proof.
  destruct (last_some_nonblank _ _ Hr) as (f0 & fs & ->).
  rewrite ler_ultimo_sorteio_eq, Hw, last_record_filter, Hr.
  cbn [nth] in Hbad.
  destruct (Text.int f0) as [n|]; [|exists ValueError; auto].
  destruct Hbad as [Hbad|Hbad]; [discriminate|].
  destruct fs as [|f1 fs]; cbn [nth_error] in *; [exists IndexError; auto|].
  rewrite (Hbad f1 eq_refl). exists ValueError; auto.
Qed.

(** C10 (amended). Blank lines anywhere after the header row change
    neither what the read returns nor what it prints; when the last record
    that is not blank is well formed the read returns it, with its number
    and date, and prints nothing; when every line after the header is blank
    it returns (0, None, None) and prints nothing. *)
Theorem blank_lines_after_header_ignored (w : World) (hd : Row)
    (rows : list Row) (Hw : csv w = Some (hd :: rows)) :
  let w' := mkWorld (Some (hd :: filter nonblank rows)) (db w) (stdout w) in
  fst (ler_ultimo_sorteio w) = fst (ler_ultimo_sorteio w') /\
  stdout (snd (ler_ultimo_sorteio w)) = stdout (snd (ler_ultimo_sorteio w'))
  /\
  (forall r n d field1,
      last (map Some (filter nonblank rows)) None = Some r ->
      Text.int (nth 0 r "") = Some n ->
      nth_error r 1 = Some field1 ->
      Calendar.strptime_Ymd field1 = Some d ->
      ler_ultimo_sorteio w = (Ret (n, Some d, Some r), w)) /\
  (filter nonblank rows = [] ->
   ler_ultimo_sorteio w = (Ret (0, None, None), w)).
Proof.
  cbn zeta. rewrite !ler_ultimo_sorteio_eq, Hw. cbn [csv].
  rewrite (last_record_filter None (filter _ _)), filter_nonblank_twice.
  rewrite last_record_filter.
  split; [|split; [|split]].
  - destruct (last _ _) as [[|f0 fs]|]; try reflexivity.
    destruct (Text.int f0); [|reflexivity].
    destruct (nth_error _ _); [|reflexivity].
    destruct (Calendar.strptime_Ymd _); reflexivity.
  - destruct (last _ _) as [[|f0 fs]|]; try reflexivity.
    destruct (Text.int f0); [|reflexivity].
    destruct (nth_error _ _); [|reflexivity].
    destruct (Calendar.strptime_Ymd _); reflexivity.
  - intros r n d f1 Hr Hn H1 Hd.
    destruct (last_some_nonblank _ _ Hr) as (f0 & fs & ->).
    rewrite Hr. cbn [nth] in Hn. now rewrite Hn, H1, Hd.
  - intros E. rewrite E. reflexivity.
Qed.

(** ** The reconciliation cycle *)

Section Cycle.
Context `{Pandas}.

(** C7. Reading a ledger that does not exist creates it with the header
    alone and returns (0, None, None); reading a ledger that holds only
    the header returns the same; a cycle that then fetches a record
    appends it with draw number 1. *)
Theorem empty_ledger_bootstrap :
  (forall d o,
      ler_ultimo_sorteio (mkWorld None d o)
      = (Ret (0, None, None), mkWorld (Some [header]) d o)) /\
  (forall hd d o,
      ler_ultimo_sorteio (mkWorld (Some [hd]) d o)
      = (Ret (0, None, None), mkWorld (Some [hd]) d o)) /\
  (forall f novo w,
      csv w = None \/ csv w = Some [header] ->
      fetched f = Ret (Some novo) ->
      exists outs w',
        atualizar_resultados f w = (Ret tt, w') /\
        csv w' = Some [header; "1" :: tl (row_of_dados novo)] /\
        stdout w' = stdout w ++ outs /\
        In NovoSorteioSalvo outs /\
        In (DadosSalvos (set_item0 1 novo)) outs).
Proof.
  split; [reflexivity|]. split; [reflexivity|].
  intros f novo w Hw Hf.
  destruct (atualizar_resultados_eq f w) as (outs & E).
  assert (Hl : ler_ultimo_sorteio w
               = (Ret no_draw, mkWorld (Some [header]) (db w) (stdout w))).
  { destruct w as [c d o]; cbn in Hw. destruct Hw; subst c; reflexivity. }
  assert (Hd : last_draw w = no_draw) by (unfold last_draw; now rewrite Hl).
  rewrite Hd, Hf, Hl in E. cbn [no_draw is_new snd] in E.
  rewrite salvar_novo_sorteio_eq in E. cbn [snd csv db stdout add_out] in E.
  rewrite import_from_csv_eq in E. cbn [csv db stdout app] in E.
  destruct (read_frame _) as [df|e]; cbn [snd] in E;
    eexists; eexists; (split; [exact E|]); cbn [csv stdout add_out];
    (split; [reflexivity|]); rewrite <- ?app_assoc;
    (split; [reflexivity|]); rewrite ?in_app_iff; cbn; auto 10.
Qed.

(** C1. When fetching succeeds, the record is appended exactly when the
    last date read from the ledger is absent or the fetched date is
    strictly later; otherwise the cycle reports that the draw is already
    recorded and appends nothing, whatever draw number the page gave. *)
Theorem date_gated_acceptance (f : Fetch) (novo : Dados) (w : World)
    (Hf : fetched f = Ret (Some novo)) :
  let '(ultimo_sorteio, ultima_data, _) := last_draw w in
  let before := snd (ler_ultimo_sorteio w) in
  let after := snd (atualizar_resultados f w) in
  let accepted :=
    ultima_data = None \/
    exists d, ultima_data = Some d /\ later (data_sorteio novo) d in
  exists rows outs,
    csv before = Some rows /\
    stdout after = stdout w ++ outs /\
    (csv after =
       Some (rows ++ [row_of_dados (set_item0 (ultimo_sorteio + 1) novo)])
     <-> accepted) /\
    (accepted -> In NovoSorteioSalvo outs) /\
    (~ accepted ->
     csv after = Some rows /\ db after = db w /\ In JaRegistrado outs).
Proof.
  destruct (atualizar_resultados_eq f w) as (outs & E).
  destruct (last_draw w) as [[n d] r]. cbn zeta.
  rewrite Hf in E. cbn zeta in E.
  destruct (ler_ultimo_sorteio_files w) as [Hdb Hcsv].
  destruct (ler_ultimo_sorteio_stdout w) as (o1 & Ho1).
  set (rows := match csv w with Some rows => rows | None => [header] end)
    in *.
  exists rows. rewrite E, Hcsv. clear E.
  assert (Hn : is_new d novo = true <->
               (d = None \/
                exists d0, d = Some d0 /\ later (data_sorteio novo) d0)).
  { unfold is_new. destruct d as [d0|].
    - rewrite gt_later. split.
      + intros L. right. now exists d0.
      + intros [L|(d1 & L1 & L2)]; [discriminate|]. now injection L1 as ->.
    - split; auto. }
  destruct (is_new d novo); cbn [snd].
  - destruct (import_from_csv_stdout
                (snd (salvar_novo_sorteio (set_item0 (n + 1) novo)
                   (add_out
                      [UltimoSorteioRegistrado n d;
                       SorteioMaisRecente (sorteio_numero novo)
                         (data_sorteio novo)]
                      (add_out outs (snd (ler_ultimo_sorteio w)))))))
      as (o3 & Ho3).
    rewrite Ho3, import_from_csv_csv, salvar_novo_sorteio_eq.
    cbn [snd csv stdout add_out]. rewrite Ho1, Hcsv, <- !app_assoc.
    eexists. split; [reflexivity|]. split; [reflexivity|].
    assert (A : d = None \/
                exists d0, d = Some d0 /\ later (data_sorteio novo) d0)
      by now apply Hn.
    split; [tauto|]. split.
    + intros _. rewrite !in_app_iff. cbn. auto 10.
    + intros N. now destruct N.
  - cbn [snd csv db stdout add_out]. rewrite Ho1, Hcsv, Hdb, <- !app_assoc.
    eexists. split; [reflexivity|]. split; [reflexivity|].
    assert (N : ~ (d = None \/
                   exists d0, d = Some d0 /\ later (data_sorteio novo) d0)).
    { intros A. apply Hn in A. discriminate. }
    split; [|split].
    + split; [|tauto]. intros Q. injection Q as Q.
      apply (f_equal (@List.length Row)) in Q.
      rewrite length_app in Q. cbn in Q. lia.
    + tauto.
    + intros _. split; [reflexivity|]. split; [reflexivity|].
      rewrite !in_app_iff. cbn. auto 10.
Qed.

(** C3 (amended). When the extractor returns nothing or raises, the
    cycle ends with that result, appends no row and leaves the mirror as
    it was; a ledger file that exists is unchanged, and one that does not
    exist has been created, header only, by the read that opens the
    cycle. *)
Theorem fetch_fault_appends_nothing (f : Fetch) (w : World)
    (Hf : forall novo, fetched f <> Ret (Some novo)) :
  fst (atualizar_resultados f w)
    = match fetched f with Raise e => Raise e | Ret _ => Ret tt end /\
  csv (snd (atualizar_resultados f w))
    = Some (match csv w with Some rows => rows | None => [header] end) /\
  db (snd (atualizar_resultados f w)) = db w.
Proof.
  destruct (atualizar_resultados_eq f w) as (outs & E).
  destruct (last_draw w) as [[n d] r]. cbn zeta in E.
  destruct (ler_ultimo_sorteio_files w) as [Hdb Hcsv].
  destruct (fetched f) as [[novo|]|e].
  - now destruct (Hf novo).
  - rewrite E. cbn. auto.
  - rewrite E. cbn. auto.
Qed.

(** C8. Importing twice in a row from the same ledger returns the same
    count and leaves the same table both times; without a ledger file the
    import returns 0 and does not write the table. *)
Theorem import_from_csv_idempotent (w : World) :
  let first := import_from_csv w in
  let second := import_from_csv (snd first) in
  fst second = fst first /\
  db (snd second) = db (snd first) /\
  csv (snd second) = csv w /\
  (csv w = None -> fst first = Ret 0 /\ db (snd first) = db w).
Proof.
  cbn zeta. rewrite !import_from_csv_csv.
  rewrite (import_from_csv_eq (snd _)), import_from_csv_csv.
  rewrite import_from_csv_eq.
  destruct (csv w) as [rows|] eqn:E.
  - destruct (read_frame rows); cbn; repeat split; discriminate.
  - cbn. auto.
Qed.

End Cycle.

(** ** Splitting at a character *)

Lemma prefix_char (a c : ascii) (r : string) :
  prefix (String a EmptyString) (String c r) = Text.is_char a c.
Proof.
  unfold Text.is_char. cbn. destruct (ascii_dec a c) as [->|N].
  - destruct r; now rewrite Ascii.eqb_refl.
  - symmetry. now apply Ascii.eqb_neq.
Qed.

Lemma split_from_char_step (a c : ascii) (cur r : string) :
  Text.split_from (String a EmptyString) 0 cur (String c r) =
  if Text.is_char a c
  then cur :: Text.split_from (String a EmptyString) 0 EmptyString r
  else Text.split_from (String a EmptyString) 0
         (cur ++ String c EmptyString)%string r.
Proof.
  cbn [Text.split_from]. rewrite prefix_char. reflexivity.
Qed.

Lemma split_from_char_length (a : ascii) (s cur : string) :
  List.length (Text.split_from (String a EmptyString) 0 cur s)
  = S (Text.count_char a s).
Proof.
  revert cur; induction s as [|c r IH]; intros cur; [reflexivity|].
  rewrite split_from_char_step. cbn [Text.count_char].
  destruct (Text.is_char a c); cbn [List.length]; now rewrite IH.
Qed.

(** The number of pieces is the number of separators plus one. *)
Lemma split_char_length (a : ascii) (s : string) :
  List.length (Text.split (String a EmptyString) s) = S (Text.count_char a s).
Proof. apply split_from_char_length. Qed.

Lemma append_assoc (a b c : string) :
  ((a ++ b) ++ c = a ++ (b ++ c))%string.
Proof. induction a as [|x a IH]; cbn; [reflexivity|now rewrite IH]. Qed.

Lemma append_empty_r (a : string) : (a ++ EmptyString)%string = a.
Proof. induction a as [|x a IH]; cbn; [reflexivity|now rewrite IH]. Qed.

Lemma split_from_char_one (a : ascii) (s cur p : string) :
  Text.split_from (String a EmptyString) 0 cur s = [p] ->
  p = (cur ++ s)%string.
Proof.
  revert cur; induction s as [|c r IH]; intros cur.
  - cbn. intros Q. injection Q as <-. now rewrite append_empty_r.
  - rewrite split_from_char_step. destruct (Text.is_char a c).
    + intros Q. apply (f_equal (@List.length string)) in Q.
      cbn [List.length] in Q. rewrite split_from_char_length in Q.
      discriminate.
    + intros Q. apply IH in Q. now rewrite append_assoc in Q.
Qed.

(** Two pieces are the text before and the text after the separator. *)
Lemma split_from_char_two (a : ascii) (s cur p0 p1 : string) :
  Text.split_from (String a EmptyString) 0 cur s = [p0; p1] ->
  (cur ++ s = p0 ++ String a p1)%string.
Proof.
  revert cur; induction s as [|c r IH]; intros cur; [discriminate|].
  rewrite split_from_char_step. destruct (Text.is_char a c) eqn:E.
  - apply Ascii.eqb_eq in E. subst c. intros Q.
    injection Q as <- Q. apply split_from_char_one in Q. now subst p1.
  - intros Q. apply IH in Q. now rewrite append_assoc in Q.
Qed.

Lemma split_char_two_iff (a : ascii) (s : string) :
  (exists p0 p1, Text.split (String a EmptyString) s = [p0; p1])
  <-> Text.count_char a s = 1%nat.
Proof.
  pose proof (split_char_length a s) as L. split.
  - intros (p0 & p1 & Q). rewrite Q in L. cbn in L. congruence.
  - intros C. rewrite C in L.
    destruct (Text.split _ s) as [|p0 [|p1 [|p2 ps]]]; try discriminate.
    eauto.
Qed.

(** ** What the extractor returns *)

Lemma parse_resultados_some (s : Soup) (w : World) (ns es : list string) :
  fst (parse_resultados s w) = Ret (Some (ns, es)) ->
  exists todas_li parte0 parte1,
    bet_middle s = Some (Some todas_li) /\
    (2 <= List.length todas_li)%nat /\
    Text.split "+" (nth 1 todas_li "") = [parte0; parte1] /\
    ns = map Text.strip (Text.split_ws (Text.strip parte0)) /\
    es = map Text.strip (Text.split_ws (Text.strip parte1)).
Proof.
  unfold parse_resultados.
  destruct (bet_middle s) as [[lis|]|]; [|discriminate..].
  destruct (2 <=? _) eqn:L; [|discriminate].
  rewrite bind_run, print_run.
  destruct (Text.split "+" (nth 1 lis "")) as [|p0 [|p1 [|p2 ps]]] eqn:Sp;
    try discriminate.
  rewrite !bind_run, !print_run. cbn [fst ret].
  intros Q. injection Q as <- <-.
  exists lis, p0, p1. apply Z.leb_le in L.
  split; [reflexivity|]. split; [lia|]. auto.
Qed.

Lemma parse_resultados_none (s : Soup) (todas_li : list string) (w : World) :
  bet_middle s = Some (Some todas_li) ->
  (2 <= List.length todas_li)%nat ->
  Text.count_char "+" (nth 1 todas_li "") <> 1%nat ->
  parse_resultados s w
  = (Ret None,
     add_out [TextoOriginal (nth 1 todas_li ""); FormatoIncorreto] w).
Proof.
  intros B L C. unfold parse_resultados. rewrite B.
  replace (2 <=? _) with true by lia.
  rewrite bind_run, print_run.
  pose proof (split_char_length "+" (nth 1 todas_li "")) as N.
  destruct (Text.split "+" (nth 1 todas_li "")) as [|p0 [|p1 [|p2 ps]]];
    cbn [List.length] in N;
    try (rewrite bind_run, print_run, add_out_app; reflexivity).
  exfalso. apply C. congruence.
Qed.

(** The record returned, field by field. *)
Lemma fetched_some (f : Fetch) (novo : Dados) :
  fetched f = Ret (Some novo) ->
  exists soup text todas_li parte0 parte1,
    f = Response 200 soup /\
    data_info soup = Some text /\
    fst (parse_data_info text blank_world)
      = Ret (sorteio_numero novo, data_sorteio novo) /\
    bet_middle soup = Some (Some todas_li) /\
    (2 <= List.length todas_li)%nat /\
    Text.split "+" (nth 1 todas_li "") = [parte0; parte1] /\
    numeros novo = map Text.strip (Text.split_ws (Text.strip parte0)) /\
    estrelas novo = map Text.strip (Text.split_ws (Text.strip parte1)) /\
    fst (parse_vencedores soup blank_world) = Ret (numero_vencedores novo) /\
    sorteio_tipo novo =
      (if String.eqb (Calendar.strftime_A (data_sorteio novo)) "Friday"
       then Sexta_Feira else Terca_Feira) /\
    data_sorteio_formatada novo = Calendar.strftime_Ym (data_sorteio novo).
Proof.
  unfold fetched. destruct f as [|status soup]; [discriminate|].
  cbn [obter_resultados].
  destruct (status =? 200) eqn:S200; [|discriminate].
  apply Z.eqb_eq in S200. subst status.
  destruct (data_info soup) as [text|] eqn:DI; [|discriminate].
  rewrite bind_run.
  destruct (quiet_parse_data_info text) as (r1 & o1 & H1).
  pose proof (H1 blank_world) as E1. rewrite H1.
  destruct r1 as [[n d]|e]; [|discriminate].
  rewrite bind_run.
  destruct (parse_resultados soup (add_out o1 blank_world))
    as [[[[ns es]|]|e] w2] eqn:E2; try discriminate.
  apply (f_equal fst) in E2. apply parse_resultados_some in E2.
  destruct E2 as (lis & p0 & p1 & B & L & Sp & -> & ->).
  rewrite bind_run.
  destruct (quiet_parse_vencedores soup) as (r3 & o3 & H3).
  pose proof (H3 blank_world) as E3. rewrite H3.
  destruct r3 as [v|e]; [|discriminate].
  rewrite bind_run, print_run. cbn [fst ret].
  intros Q. injection Q as <-. cbn.
  exists soup, text, lis, p0, p1. rewrite E1, E3. cbn [fst].
  repeat split; auto.
Qed.

Lemma parse_resultados_two (s : Soup) (todas_li : list string)
    (parte0 parte1 : string) (w : World) :
  bet_middle s = Some (Some todas_li) ->
  (2 <= List.length todas_li)%nat ->
  Text.split "+" (nth 1 todas_li "") = [parte0; parte1] ->
  exists outs,
    parse_resultados s w
    = (Ret (Some (map Text.strip (Text.split_ws (Text.strip parte0)),
                  map Text.strip (Text.split_ws (Text.strip parte1)))),
       add_out outs w).
Proof.
  intros B L Sp. unfold parse_resultados. rewrite B, Sp.
  replace (2 <=? _) with true by lia.
  rewrite !bind_run, !print_run. cbn iota beta.
  rewrite !bind_run, !print_run. cbn iota beta.
  rewrite !bind_run, !print_run. cbn iota beta.
  unfold ret. rewrite !add_out_app. eauto.
Qed.

Lemma weekday_range (d : Calendar.date) : 0 <= Calendar.weekday d < 7.
Proof. unfold Calendar.weekday. apply Z.mod_pos_bound. lia. Qed.

(** The name of the day is "Friday" exactly on weekday 4. *)
Lemma strftime_A_friday (d : Calendar.date) :
  String.eqb (Calendar.strftime_A d) "Friday" = (Calendar.weekday d =? 4).
Proof.
  unfold Calendar.strftime_A. pose proof (weekday_range d) as R.
  assert (C : Calendar.weekday d = 0 \/ Calendar.weekday d = 1 \/
              Calendar.weekday d = 2 \/ Calendar.weekday d = 3 \/
              Calendar.weekday d = 4 \/ Calendar.weekday d = 5 \/
              Calendar.weekday d = 6) by lia.
  destruct C as [C|[C|[C|[C|[C|[C|C]]]]]]; rewrite C; reflexivity.
Qed.

(** When every lookup succeeds the extractor returns the record, whatever
    the weekday of the date. *)
Lemma fetched_record (soup : Soup) (text : string) (todas_li : list string)
    (parte0 parte1 : string) (n v : Z) (d : Calendar.date) :
  data_info soup = Some text ->
  fst (parse_data_info text blank_world) = Ret (n, d) ->
  bet_middle soup = Some (Some todas_li) ->
  (2 <= List.length todas_li)%nat ->
  Text.split "+" (nth 1 todas_li "") = [parte0; parte1] ->
  fst (parse_vencedores soup blank_world) = Ret v ->
  fetched (Response 200 soup)
  = Ret (Some (mkDados n d (Calendar.strftime_Ym d)
                 (map Text.strip (Text.split_ws (Text.strip parte0)))
                 (map Text.strip (Text.split_ws (Text.strip parte1)))
                 v
                 (if Calendar.weekday d =? 4
                  then Sexta_Feira else Terca_Feira))).
Proof.
  intros DI P B L Sp V. unfold fetched. cbn [obter_resultados Z.eqb Pos.eqb].
  rewrite DI, bind_run.
  destruct (quiet_parse_data_info text) as (r1 & o1 & H1).
  rewrite H1 in *. cbn [fst] in P. subst r1.
  rewrite bind_run.
  destruct (parse_resultados_two soup todas_li parte0 parte1
              (add_out o1 blank_world) B L Sp) as (o2 & H2).
  rewrite H2, bind_run.
  destruct (quiet_parse_vencedores soup) as (r3 & o3 & H3).
  rewrite H3 in *. cbn [fst] in V. subst r3.
  rewrite bind_run, print_run. cbn [fst ret].
  now rewrite strftime_A_friday.
Qed.

(** ** The source extractor *)

(** C5. The results text is split at "+": a text with no "+" or with more
    than one makes the extractor report the wrong format and return
    nothing; a record is returned only when the text holds exactly one
    "+", its two sides giving the numbers and the stars. *)
Theorem results_text_split_on_plus (soup : Soup) (text : string)
    (todas_li : list string) (nd : Z * Calendar.date)
    (Hinfo : data_info soup = Some text)
    (Hparse : fst (parse_data_info text blank_world) = Ret nd)
    (Hdiv : bet_middle soup = Some (Some todas_li))
    (Hli : (2 <= List.length todas_li)%nat) :
  let resultado_texto := nth 1 todas_li "" in
  let f := Response 200 soup in
  (Text.count_char "+" resultado_texto <> 1%nat ->
   exists outs, forall w,
     obter_resultados f w = (Ret None, add_out (outs ++ [FormatoIncorreto]) w))
  /\
  (forall novo,
      fetched f = Ret (Some novo) ->
      Text.count_char "+" resultado_texto = 1%nat /\
      exists parte0 parte1,
        resultado_texto = (parte0 ++ "+" ++ parte1)%string /\
        numeros novo = map Text.strip (Text.split_ws (Text.strip parte0)) /\
        estrelas novo = map Text.strip (Text.split_ws (Text.strip parte1)))
  /\
  (Text.count_char "+" resultado_texto = 1%nat -> fetched f <> Ret None).
Proof.
  cbn zeta. split; [|split].
  - intros C.
    destruct (quiet_parse_data_info text) as (r1 & o1 & H1).
    rewrite H1 in Hparse. cbn [fst] in Hparse. subst r1.
    exists (o1 ++ [TextoOriginal (nth 1 todas_li "")]). intros w.
    cbn [obter_resultados Z.eqb Pos.eqb].
    rewrite Hinfo, bind_run, H1. destruct nd as [n d].
    rewrite bind_run, (parse_resultados_none soup todas_li _ Hdiv Hli C).
    unfold ret. now rewrite add_out_app, <- app_assoc.
  - intros novo Hf.
    destruct (fetched_some _ _ Hf)
      as (soup' & text' & lis & p0 & p1 & Ef & _ & _ & B & _ & Sp & Hn & He
          & _).
    injection Ef as <-. rewrite Hdiv in B. injection B as <-.
    split.
    + apply split_char_two_iff. eauto.
    + exists p0, p1. split; [|auto].
      apply split_from_char_two in Sp. exact Sp.
  - intros C Hf. apply split_char_two_iff in C. destruct C as (p0 & p1 & Sp).
    unfold fetched in Hf. cbn [obter_resultados Z.eqb Pos.eqb] in Hf.
    rewrite Hinfo, bind_run in Hf.
    destruct (quiet_parse_data_info text) as (r1 & o1 & H1).
    rewrite H1 in *. cbn [fst] in Hparse. subst r1. destruct nd as [n d].
    rewrite bind_run in Hf.
    destruct (parse_resultados_two soup todas_li p0 p1
                (add_out o1 blank_world) Hdiv Hli Sp) as (o2 & H2).
    rewrite H2, bind_run in Hf.
    destruct (parse_vencedores soup _) as [[v|e] w3]; [|discriminate].
    rewrite bind_run, print_run in Hf. discriminate.
Qed.

(** C6 (amended). The numbers of a record returned by the extractor are
    the tokens, separated by white space, of the results text before its
    single "+", and the stars are those after it, in the order of the
    text; the row built from the record lists them in that order.  Their
    counts are those of the text: the extractor does not check them. *)
Theorem numbers_are_tokens_of_results_text (f : Fetch) (novo : Dados)
    (Hf : fetched f = Ret (Some novo)) :
  exists soup todas_li parte0 parte1,
    f = Response 200 soup /\
    bet_middle soup = Some (Some todas_li) /\
    nth 1 todas_li "" = (parte0 ++ "+" ++ parte1)%string /\
    Text.count_char "+" (nth 1 todas_li "") = 1%nat /\
    numeros novo = map Text.strip (Text.split_ws (Text.strip parte0)) /\
    estrelas novo = map Text.strip (Text.split_ws (Text.strip parte1)) /\
    row_of_dados novo =
      [Text.str (sorteio_numero novo); Calendar.isoformat (data_sorteio novo);
       data_sorteio_formatada novo]
      ++ map Text.strip (Text.split_ws (Text.strip parte0))
      ++ map Text.strip (Text.split_ws (Text.strip parte1))
      ++ [Text.str (numero_vencedores novo); sorteio_tipo novo].
Proof.
  destruct (fetched_some _ _ Hf)
    as (soup & text & lis & p0 & p1 & Ef & _ & _ & B & _ & Sp & Hn & He & _).
  exists soup, lis, p0, p1.
  split; [exact Ef|]. split; [exact B|].
  split; [now apply split_from_char_two in Sp|].
  split; [apply split_char_two_iff; eauto|].
  split; [exact Hn|]. split; [exact He|].
  unfold row_of_dados. now rewrite Hn, He.
Qed.

(** C9 (amended). The weekday of the date never makes the fetch fail:
    when the lookups of the page succeed the record is returned, with type
    "Sexta-Feira" for a Friday and "Terça-Feira", the default, for every
    other weekday. *)
Theorem category_defaults_to_terca (soup : Soup) (text : string)
    (todas_li : list string) (parte0 parte1 : string) (n v : Z)
    (d : Calendar.date)
    (Hinfo : data_info soup = Some text)
    (Hparse : fst (parse_data_info text blank_world) = Ret (n, d))
    (Hdiv : bet_middle soup = Some (Some todas_li))
    (Hli : (2 <= List.length todas_li)%nat)
    (Hsplit : Text.split "+" (nth 1 todas_li "") = [parte0; parte1])
    (Hwin : fst (parse_vencedores soup blank_world) = Ret v) :
  exists novo,
    fetched (Response 200 soup) = Ret (Some novo) /\
    data_sorteio novo = d /\
    (Calendar.weekday d = 4 -> sorteio_tipo novo = Sexta_Feira) /\
    (Calendar.weekday d <> 4 -> sorteio_tipo novo = Terca_Feira).
Proof.
  eexists. split.
  - eapply fetched_record; eassumption.
  - cbn [data_sorteio sorteio_tipo]. split; [reflexivity|].
    split; intros W.
    + now rewrite W.
    + apply Z.eqb_neq in W. now rewrite W.
Qed.

(** ** Printing and reading numbers *)

Lemma digit_char_code (k : Z) :
  0 <= k <= 9 -> Text.code (Text.digit_char k) = 48 + k.
Proof.
  intros R.
  assert (C : k = 0 \/ k = 1 \/ k = 2 \/ k = 3 \/ k = 4 \/ k = 5 \/ k = 6 \/
              k = 7 \/ k = 8 \/ k = 9) by lia.
  repeat (destruct C as [C|C]; [subst k; reflexivity|]). subst k. reflexivity.
Qed.

Lemma digit_char_decimal (k : Z) :
  0 <= k <= 9 -> Text.isdecimal (Text.digit_char k) = true.
Proof.
  intros R. unfold Text.isdecimal, Text.in_range.
  rewrite digit_char_code by exact R. lia.
Qed.

Lemma decimal_not_space (c : ascii) :
  Text.isdecimal c = true -> Text.isspace_int c = false.
Proof. unfold Text.isdecimal, Text.isspace_int, Text.in_range. lia. Qed.

Lemma digits_from_digit (a k : Z) (p : bool) (r : string) :
  0 <= k <= 9 ->
  Text.digits_from a p (String (Text.digit_char k) r)
  = Text.digits_from (10 * a + k) true r.
Proof.
  intros R. cbn [Text.digits_from].
  rewrite digit_char_decimal, digit_char_code by exact R.
  f_equal. lia.
Qed.

Lemma str_nat_from_value (fuel : nat) :
  forall (n : Z) (acc : string) (p : bool),
    0 <= n < 10 ^ Z.of_nat (S fuel) ->
    Text.digits_from 0 p (Text.str_nat_from fuel n acc)
    = Text.digits_from n true acc.
Proof.
  induction fuel as [|f IH]; intros n acc p R.
  - cbn [Text.str_nat_from]. change (10 ^ Z.of_nat 1) with 10 in R.
    rewrite Z.mod_small by lia. rewrite digits_from_digit by lia.
    f_equal.
  - cbn [Text.str_nat_from]. destruct (n <? 10) eqn:E.
    + apply Z.ltb_lt in E. rewrite Z.mod_small by lia.
      rewrite digits_from_digit by lia. f_equal.
    + apply Z.ltb_ge in E.
      assert (B : 0 <= n mod 10 <= 9)
        by (pose proof (Z.mod_pos_bound n 10); lia).
      rewrite IH.
      * rewrite digits_from_digit by exact B. f_equal.
        pose proof (Z.div_mod n 10). lia.
      * rewrite Nat2Z.inj_succ, Z.pow_succ_r in R by lia.
        split; [apply Z.div_pos; lia|].
        apply Z.div_lt_upper_bound; lia.
Qed.

Lemma str_nat_from_decimal (fuel : nat) :
  forall (n : Z) (acc : string),
    0 <= n ->
    Text.all_chars Text.isdecimal acc = true ->
    Text.all_chars Text.isdecimal (Text.str_nat_from fuel n acc) = true.
Proof.
  induction fuel as [|f IH]; intros n acc R A;
    assert (B : 0 <= n mod 10 <= 9)
      by (pose proof (Z.mod_pos_bound n 10); lia);
    cbn [Text.str_nat_from].
  - cbn. now rewrite digit_char_decimal, A.
  - destruct (n <? 10).
    + cbn. now rewrite digit_char_decimal, A.
    + apply IH; [apply Z.div_pos; lia|].
      cbn. now rewrite digit_char_decimal, A.
Qed.

Lemma lstrip_decimal (s : string) :
  Text.all_chars Text.isdecimal s = true ->
  Text.lstrip_by Text.isspace_int s = s.
Proof.
  destruct s as [|c r]; [reflexivity|]. cbn. intros A.
  apply andb_true_iff in A. destruct A as [A _].
  now rewrite (decimal_not_space _ A).
Qed.

Lemma rstrip_decimal (s : string) :
  Text.all_chars Text.isdecimal s = true ->
  Text.rstrip_by Text.isspace_int s = s.
Proof.
  induction s as [|c r IH]; [reflexivity|]. cbn. intros A.
  apply andb_true_iff in A. destruct A as [A B].
  rewrite (IH B). destruct r; [|reflexivity].
  now rewrite (decimal_not_space _ A).
Qed.

(** On a string of decimal digits [int] reads the digits. *)
Lemma int_decimal (s : string) :
  Text.all_chars Text.isdecimal s = true ->
  Text.int s = Text.digits_from 0 false s.
Proof.
  intros A. unfold Text.int.
  rewrite lstrip_decimal, rstrip_decimal by exact A.
  destruct s as [|c r]; [reflexivity|].
  cbn in A. apply andb_true_iff in A. destruct A as [A _].
  destruct c as [[] [] [] [] [] [] [] []]; try discriminate A; reflexivity.
Qed.

Lemma log2_fuel (n : Z) :
  0 <= n -> n < 10 ^ Z.of_nat (S (Z.to_nat (Z.log2 n))).
Proof.
  intros R. rewrite Nat2Z.inj_succ, Z2Nat.id by apply Z.log2_nonneg.
  destruct (Z.eq_dec n 0) as [->|N]; [reflexivity|].
  pose proof (Z.log2_spec n ltac:(lia)) as [_ U].
  eapply Z.lt_le_trans; [exact U|].
  apply Z.pow_le_mono_l. lia.
Qed.

(** [int(str(n)) == n] for a number that is not negative. *)
Lemma int_str (n : Z) : 0 <= n -> Text.int (Text.str n) = Some n.
Proof.
  intros R. unfold Text.str. replace (n <? 0) with false by lia.
  rewrite int_decimal by (now apply str_nat_from_decimal).
  rewrite str_nat_from_value by (split; [exact R|now apply log2_fuel]).
  reflexivity.
Qed.

(** ** Printing and reading dates *)

Lemma valid_range (d : Calendar.date) :
  Calendar.valid d = true ->
  1 <= Calendar.year d <= 9999 /\ 1 <= Calendar.month d <= 12 /\
  1 <= Calendar.day d <= 31.
Proof.
  unfold Calendar.valid, Calendar.days_in_month. intros V.
  repeat (apply andb_true_iff in V; destruct V as [V ?]).
  repeat split; try lia.
  destruct (Calendar.month d =? 2);
    [destruct (Calendar.is_leap (Calendar.year d))|
     destruct (_ || _)]; lia.
Qed.

Lemma re_Y_pad4 (y : Z) (rest : string) :
  0 <= y <= 9999 ->
  Calendar.re_Y (Text.pad4 y ++ rest)%string = [(Text.pad4 y, rest)].
Proof.
  intros R. unfold Text.pad4. cbn [append Calendar.re_Y].
  rewrite !digit_char_decimal; [reflexivity|..].
  - pose proof (Z.mod_pos_bound y 10). lia.
  - pose proof (Z.mod_pos_bound (y / 10) 10). lia.
  - pose proof (Z.mod_pos_bound (y / 100) 10). lia.
  - split; [apply Z.div_pos; lia|].
    apply Z.lt_succ_r, Z.div_lt_upper_bound; lia.
Qed.

Lemma int_pad4 (y : Z) : 0 <= y <= 9999 -> Text.int (Text.pad4 y) = Some y.
Proof.
  intros R.
  assert (B0 : 0 <= y mod 10 <= 9) by (pose proof (Z.mod_pos_bound y 10); lia).
  assert (B1 : 0 <= (y / 10) mod 10 <= 9)
    by (pose proof (Z.mod_pos_bound (y / 10) 10); lia).
  assert (B2 : 0 <= (y / 100) mod 10 <= 9)
    by (pose proof (Z.mod_pos_bound (y / 100) 10); lia).
  assert (B3 : 0 <= y / 1000 <= 9).
  { split; [apply Z.div_pos; lia|].
    apply Z.lt_succ_r, Z.div_lt_upper_bound; lia. }
  rewrite int_decimal.
  - unfold Text.pad4. rewrite !digits_from_digit by assumption.
    cbn [Text.digits_from]. f_equal.
    pose proof (Z.div_mod y 10). pose proof (Z.div_mod (y / 10) 10).
    pose proof (Z.div_mod (y / 100) 10).
    assert (y / 10 / 10 = y / 100) by (now rewrite Z.div_div by lia).
    assert (y / 100 / 10 = y / 1000) by (now rewrite Z.div_div by lia).
    lia.
  - unfold Text.pad4. cbn [Text.all_chars].
    now rewrite !digit_char_decimal by assumption.
Qed.

Lemma month_cases (m : Z) :
  1 <= m <= 12 ->
  m = 1 \/ m = 2 \/ m = 3 \/ m = 4 \/ m = 5 \/ m = 6 \/ m = 7 \/ m = 8 \/
  m = 9 \/ m = 10 \/ m = 11 \/ m = 12.
Proof. lia. Qed.

Lemma re_m_pad2 (m : Z) (rest : string) :
  1 <= m <= 12 ->
  exists l,
    Calendar.re_m (Text.pad2 m ++ rest)%string = (Text.pad2 m, rest) :: l /\
    Text.int (Text.pad2 m) = Some m.
Proof.
  intros R. apply month_cases in R.
  repeat (destruct R as [R|R]; [subst m; eexists; split; reflexivity|]).
  subst m; eexists; split; reflexivity.
Qed.

Lemma re_d_pad2 (d : Z) :
  1 <= d <= 31 ->
  exists l, Calendar.re_d (Text.pad2 d) = (Text.pad2 d, EmptyString) :: l
            /\ Text.int (Text.pad2 d) = Some d.
Proof.
  intros R.
  assert (C : exists k, d = Z.of_nat k /\ (1 <= k <= 31)%nat)
    by (exists (Z.to_nat d); lia).
  destruct C as (k & -> & K).
  do 32 (destruct k as [|k]; [try lia; eexists; split; reflexivity|]). lia.
Qed.

(** [strptime(str(d), "%Y-%m-%d").date() == d] for every date. *)
Lemma strptime_isoformat (d : Calendar.date) :
  Calendar.valid d = true ->
  Calendar.strptime_Ymd (Calendar.isoformat d) = Some d.
Proof.
  intros V. destruct (valid_range d V) as (Ry & Rm & Rd).
  unfold Calendar.strptime_Ymd, Calendar.isoformat.
  rewrite re_Y_pad4 by lia. cbn [flat_map]. rewrite app_nil_r.
  cbn [append Calendar.lit Text.is_char Ascii.eqb Bool.eqb flat_map].
  rewrite app_nil_r.
  destruct (re_m_pad2 (Calendar.month d)
              ("-" ++ Text.pad2 (Calendar.day d))%string Rm) as (lm & Em & Im).
  cbn [append] in Em. rewrite Em. cbn [flat_map].
  cbn [Calendar.lit Text.is_char Ascii.eqb Bool.eqb flat_map].
  destruct (re_d_pad2 (Calendar.day d) Rd) as (ld & Ed & Id).
  rewrite Ed. cbn [map app Calendar.first_match].
  rewrite int_pad4, Im, Id by lia.
  unfold Calendar.make. destruct d as [y m dd]. cbn in *. now rewrite V.
Qed.

Lemma first_match_valid ms (d : Calendar.date) :
  Calendar.first_match ms = Some d -> Calendar.valid d = true.
Proof.
  unfold Calendar.first_match.
  destruct ms as [|[[[gy gm] gd] rest] ms]; [discriminate|].
  destruct rest; [|discriminate].
  destruct (Text.int gy), (Text.int gm), (Text.int gd); try discriminate.
  unfold Calendar.make. destruct (Calendar.valid _) eqn:V; [|discriminate].
  intros Q. now injection Q as <-.
Qed.

(** A date read off the page is a date of the calendar. *)
Lemma parse_data_info_valid (text : string) (w : World) (n : Z)
    (d : Calendar.date) :
  fst (parse_data_info text w) = Ret (n, d) -> Calendar.valid d = true.
Proof.
  unfold parse_data_info.
  rewrite bind_run. destruct (nth_error _ 1) as [after|]; [|discriminate].
  cbn [or_raise ret]. rewrite bind_run.
  destruct (Text.int _) as [k|]; [|discriminate].
  cbn [or_raise ret]. rewrite bind_run.
  destruct (nth_error _ 1) as [ds|]; [|discriminate].
  cbn [or_raise ret]. rewrite bind_run.
  destruct (Calendar.strptime_dmY ds) as [d0|] eqn:E; [|discriminate].
  cbn [or_raise ret fst]. intros Q. injection Q as _ <-.
  unfold Calendar.strptime_dmY in E. now apply first_match_valid in E.
Qed.

Lemma fetched_valid_date (f : Fetch) (novo : Dados) :
  fetched f = Ret (Some novo) -> Calendar.valid (data_sorteio novo) = true.
Proof.
  intros Hf. destruct (fetched_some _ _ Hf)
    as (soup & text & lis & p0 & p1 & _ & _ & P & _).
  now apply parse_data_info_valid in P.
Qed.

(** ** Numbering *)

Lemma last_record_snoc (u : option Row) (rows : list Row) (r : Row) :
  nonblank r = true -> last_record u (rows ++ [r]) = Some r.
Proof.
  intros N. revert u. induction rows as [|x rows IH]; intros u.
  - destruct r; [discriminate|reflexivity].
  - cbn [app last_record]. destruct x; apply IH.
Qed.

(** On a numbered ledger the read returns the number of records. *)
Lemma numbered_read (w : World) (hd : Row) (rows : list Row) :
  csv w = Some (hd :: rows) -> numbered rows ->
  exists d r,
    ler_ultimo_sorteio w = (Ret (Z.of_nat (List.length rows), d, r), w).
Proof.
  intros Hw N. rewrite ler_ultimo_sorteio_eq, Hw.
  destruct N as [|rows d fields N V].
  - exists None, None. reflexivity.
  - rewrite last_record_snoc by reflexivity.
    rewrite int_str by lia. cbn [nth_error].
    rewrite strptime_isoformat by exact V.
    rewrite length_app. cbn [List.length].
    replace (List.length rows + 1)%nat with (S (List.length rows)) by lia.
    eauto.
Qed.

Lemma numbered_column (rows : list Row) :
  numbered rows ->
  map (fun r => nth 0 r "") rows
  = map (fun i => Text.str (Z.of_nat i)) (seq 1 (List.length rows)).
Proof.
  induction 1 as [|rows d fields N IH V]; [reflexivity|].
  rewrite length_app, map_app. cbn [List.length map nth].
  rewrite Nat.add_1_r, seq_S, map_app. cbn [map Nat.add].
  f_equal. exact IH.
Qed.

Lemma row_of_dados_set_item0 (n : Z) (novo : Dados) :
  row_of_dados (set_item0 n novo)
  = Text.str n :: Calendar.isoformat (data_sorteio novo)
      :: tl (tl (row_of_dados novo)).
Proof. reflexivity. Qed.

Section Numbering.
Context `{Pandas}.

(** One cycle keeps a numbered ledger numbered. *)
Lemma atualizar_resultados_numbered (f : Fetch) (w : World)
    (rows : list Row) :
  csv (snd (ler_ultimo_sorteio w)) = Some (header :: rows) ->
  numbered rows ->
  exists rows',
    csv (snd (atualizar_resultados f w)) = Some (header :: rows') /\
    numbered rows'.
Proof.
  intros Hw N.
  destruct (atualizar_resultados_eq f w) as (outs & E).
  assert (L : exists d r,
             last_draw w = (Z.of_nat (List.length rows), d, r)).
  { unfold last_draw. destruct (ler_ultimo_sorteio_files w) as [_ C].
    rewrite Hw in C. injection C as C.
    destruct w as [[l|] d0 o]; cbn [csv] in C.
    - subst l.
      destruct (numbered_read (mkWorld (Some (header :: rows)) d0 o)
                  header rows eq_refl N) as (d & r & R).
      rewrite R. cbn [fst]. eauto.
    - injection C as ->. cbn. unfold no_draw. eauto. }
  destruct L as (d & r & L). rewrite L in E. cbn zeta in E.
  destruct (fetched f) as [[novo|]|e] eqn:Hf.
  - destruct (is_new d novo).
    + exists (rows ++ [row_of_dados
                         (set_item0 (Z.of_nat (List.length rows) + 1) novo)]).
      rewrite E. cbn [snd].
      rewrite import_from_csv_csv, salvar_novo_sorteio_eq.
      cbn [snd csv add_out]. rewrite Hw. split; [reflexivity|].
      rewrite row_of_dados_set_item0.
      replace (Z.of_nat (List.length rows) + 1)
        with (Z.of_nat (S (List.length rows))) by lia.
      apply numbered_snoc; [exact N|].
      now apply fetched_valid_date with f.
    + exists rows. rewrite E. cbn [snd csv add_out]. auto.
  - exists rows. rewrite E. cbn [snd csv add_out]. auto.
  - exists rows. rewrite E. cbn [snd csv add_out]. auto.
Qed.

Lemma cycles_numbered (responses : list Fetch) :
  forall (w : World) (rows : list Row),
    csv w = Some (header :: rows) -> numbered rows ->
    exists rows',
      csv (cycles responses w) = Some (header :: rows') /\ numbered rows'.
Proof.
  induction responses as [|f fs IH]; intros w rows Hw N.
  - exists rows. auto.
  - destruct (atualizar_resultados_numbered f w rows) as (rows1 & C1 & N1).
    + destruct (ler_ultimo_sorteio_files w) as [_ C]. now rewrite C, Hw.
    + exact N.
    + exact (IH _ rows1 C1 N1).
Qed.

(** C2. An accepted record is appended with the draw number read from
    the ledger plus one in place of the number of the page; so, after any
    number of cycles that start on an empty ledger, the column
    DRAW_NUMBER reads 1, 2, 3, ... without gap or repeat, whatever
    the pages reported. *)
Theorem draw_numbers_count_from_one (responses : list Fetch) (w : World)
    (Hw : csv w = None \/ csv w = Some [header]) :
  (forall f novo w0 ultimo_sorteio ultima_data ultimo_registro,
      last_draw w0 = (ultimo_sorteio, ultima_data, ultimo_registro) ->
      fetched f = Ret (Some novo) ->
      is_new ultima_data novo = true ->
      exists rows,
        csv (snd (ler_ultimo_sorteio w0)) = Some rows /\
        csv (snd (atualizar_resultados f w0))
        = Some (rows ++ [Text.str (ultimo_sorteio + 1)
                         :: tl (row_of_dados novo)])) /\
  draw_number_column (cycles responses w)
  = map (fun i => Text.str (Z.of_nat i))
      (seq 1 (List.length (draw_number_column (cycles responses w)))).
Proof.
  split.
  - intros f novo w0 n d r L Hf A.
    destruct (atualizar_resultados_eq f w0) as (outs & E).
    rewrite L, Hf in E. cbn zeta in E. rewrite A in E.
    destruct (ler_ultimo_sorteio_files w0) as [_ C].
    eexists. split; [exact C|].
    rewrite E. cbn [snd].
    rewrite import_from_csv_csv, salvar_novo_sorteio_eq.
    cbn [snd csv add_out]. rewrite C. reflexivity.
  - destruct responses as [|f fs].
    + unfold draw_number_column. cbn [cycles fold_left].
      destruct Hw as [-> | ->]; reflexivity.
    + change (cycles (f :: fs) w)
        with (cycles fs (snd (atualizar_resultados f w))).
      destruct (atualizar_resultados_numbered f w []) as (rows1 & C1 & N1).
      * destruct (ler_ultimo_sorteio_files w) as [_ C]. rewrite C.
        destruct Hw as [-> | ->]; reflexivity.
      * constructor.
      * destruct (cycles_numbered fs _ rows1 C1 N1) as (rows2 & C2 & N2).
        unfold draw_number_column. rewrite C2.
        rewrite length_map. now apply numbered_column.
Qed.

End Numbering.

(** * Further properties of the code *)

(** ** Numbers of either sign *)

Lemma str_nat_from_nonempty (fuel : nat) :
  forall (n : Z) (acc : string),
    exists c r, Text.str_nat_from fuel n acc = String c r.
Proof.
  induction fuel as [|f IH]; intros n acc; cbn [Text.str_nat_from].
  - eauto.
  - destruct (n <? 10); [eauto|apply IH].
Qed.

(** [int(str(n)) == n] for every integer. *)
Lemma int_str_any (n : Z) : Text.int (Text.str n) = Some n.
Proof.
  destruct (Z.ltb_spec n 0) as [N|N]; [|now apply int_str].
  unfold Text.str. replace (n <? 0) with true by lia.
  set (ds := Text.str_nat_from _ (- n) EmptyString).
  assert (D : Text.all_chars Text.isdecimal ds = true)
    by (apply str_nat_from_decimal; [lia|reflexivity]).
  assert (V : Text.digits_from 0 false ds = Some (- n)).
  { unfold ds. rewrite str_nat_from_value; [reflexivity|].
    split; [lia|apply log2_fuel; lia]. }
  destruct (str_nat_from_nonempty (Z.to_nat (Z.log2 (- n))) (- n) EmptyString)
    as (c & r & E).
  fold ds in E. unfold Text.int.
  cbn [Text.lstrip_by].
  replace (Text.isspace_int "-") with false by reflexivity.
  cbn [Text.rstrip_by]. rewrite (rstrip_decimal ds D), E, <- E.
  rewrite V. cbn. f_equal. lia.
Qed.

(** ** Saving and reading back *)

Lemma nonblank_row_of_dados (d : Dados) : nonblank (row_of_dados d) = true.
Proof. reflexivity. Qed.

(** What the read returns once a record has been appended to a file that
    has a first line. *)
Lemma ler_after_append (w : World) (hd : Row) (rows : list Row) (d : Dados) :
  csv w = Some (hd :: rows ++ [row_of_dados d]) ->
  Calendar.valid (data_sorteio d) = true ->
  ler_ultimo_sorteio w
  = (Ret (sorteio_numero d, Some (data_sorteio d), Some (row_of_dados d)), w).
Proof.
  intros Hw V. rewrite ler_ultimo_sorteio_eq, Hw.
  rewrite last_record_snoc by apply nonblank_row_of_dados.
  change (row_of_dados d)
    with (Text.str (sorteio_numero d) :: Calendar.isoformat (data_sorteio d)
          :: tl (tl (row_of_dados d))).
  cbv beta iota. rewrite int_str_any. cbn [nth_error].
  now rewrite strptime_isoformat by exact V.
Qed.

(** X1. A record saved to a ledger that has its header line is what the
    next read returns: its number, its date and its fields, without any
    error. *)
Theorem saved_record_is_read_back (dados : Dados) (w : World) (hd : Row)
    (rows : list Row)
    (Hw : csv w = Some (hd :: rows))
    (Hd : Calendar.valid (data_sorteio dados) = true) :
  let w' := snd (salvar_novo_sorteio dados w) in
  csv w' = Some (hd :: rows ++ [row_of_dados dados]) /\
  ler_ultimo_sorteio w'
  = (Ret (sorteio_numero dados, Some (data_sorteio dados),
          Some (row_of_dados dados)), w').
Proof.
  cbn zeta. rewrite salvar_novo_sorteio_eq. cbn [snd]. rewrite Hw.
  split; [reflexivity|].
  now apply ler_after_append with hd rows.
Qed.

(** X3. The read never lets an exception out, never touches the mirror,
    leaves a ledger file that exists as it is, and prints at most one
    line, the error of a failed read. *)
Theorem read_returns_and_keeps_files (w : World) :
  exists v outs,
    ler_ultimo_sorteio w
    = (Ret v,
       mkWorld
         (Some (match csv w with Some rows => rows | None => [header] end))
         (db w) (stdout w ++ outs)) /\
    (outs = [] \/ exists e, outs = [ErroLerCSV e] /\ v = no_draw).
Proof.
  ler_cases w; eexists; eexists; unfold add_out; cbn [csv db stdout];
    (split; [try reflexivity|]);
    try (left; reflexivity); try (right; eexists; split; reflexivity);
    try (rewrite app_nil_r; reflexivity).
Qed.

(** ** What one cycle does to the files *)

Lemma last_draw_csv (a b : World) : csv a = csv b -> last_draw a = last_draw b.
Proof.
  intros E. unfold last_draw. rewrite !ler_ultimo_sorteio_eq, E.
  destruct (csv b) as [[|hd rest]|]; try reflexivity.
  destruct (last_record None rest) as [[|f0 fs]|]; try reflexivity.
  destruct (Text.int f0); try reflexivity.
  destruct (nth_error _ 1); try reflexivity.
  destruct (Calendar.strptime_Ymd _); reflexivity.
Qed.

Lemma last_draw_of_read (w : World) (v : LastDraw) (w' : World) :
  ler_ultimo_sorteio w = (Ret v, w') -> last_draw w = v.
Proof. intros E. unfold last_draw. now rewrite E. Qed.

Section Files.
Context `{Pandas}.

(** Ledger, mirror and result of a cycle, from the last draw read and the
    record fetched. *)
Lemma atualizar_resultados_files (f : Fetch) (w : World) :
  let base := match csv w with Some rows => rows | None => [header] end in
  let '(ultimo_sorteio, ultima_data, _) := last_draw w in
  let rows :=
    match fetched f with
    | Ret (Some novo) =>
        if is_new ultima_data novo
        then base ++ [row_of_dados (set_item0 (ultimo_sorteio + 1) novo)]
        else base
    | _ => base
    end in
  csv (snd (atualizar_resultados f w)) = Some rows /\
  db (snd (atualizar_resultados f w))
  = match fetched f with
    | Ret (Some novo) =>
        if is_new ultima_data novo
        then match read_frame rows with
             | Ret df => Some df
             | Raise _ => db w
             end
        else db w
    | _ => db w
    end /\
  fst (atualizar_resultados f w)
  = match fetched f with Raise e => Raise e | Ret _ => Ret tt end.
Proof.
  cbn zeta.
  destruct (atualizar_resultados_eq f w) as (outs & E).
  destruct (last_draw w) as [[n d] r]. cbn zeta in E.
  destruct (ler_ultimo_sorteio_files w) as [Hdb Hcsv].
  rewrite E. clear E.
  destruct (fetched f) as [[novo|]|e]; cbn [fst snd csv db add_out]; auto.
  destruct (is_new d novo); cbn [fst snd csv db add_out]; auto.
  rewrite import_from_csv_csv, import_from_csv_eq, salvar_novo_sorteio_eq.
  cbn [snd csv db stdout add_out]. rewrite Hcsv, Hdb.
  split; [reflexivity|]. split; [|reflexivity].
  destruct (read_frame _); reflexivity.
Qed.

(** X8. An accepted record is in the ledger whether or not the mirror
    could be rebuilt: the cycle ends normally, the mirror holds the frame
    of the ledger as it now is when pandas reads it, and keeps its old
    table when pandas fails. *)
Theorem accepted_cycle_rebuilds_mirror (f : Fetch) (novo : Dados) (w : World)
    (ultimo_sorteio : Z) (ultima_data : option Calendar.date)
    (ultimo_registro : option Row)
    (Hl : last_draw w = (ultimo_sorteio, ultima_data, ultimo_registro))
    (Hf : fetched f = Ret (Some novo))
    (Ha : is_new ultima_data novo = true) :
  let after := snd (atualizar_resultados f w) in
  exists rows,
    csv after = Some rows /\
    last rows [] = row_of_dados (set_item0 (ultimo_sorteio + 1) novo) /\
    fst (atualizar_resultados f w) = Ret tt /\
    db after = match read_frame rows with
               | Ret df => Some df
               | Raise _ => db w
               end.
Proof.
  cbn zeta. pose proof (atualizar_resultados_files f w) as P.
  cbn zeta in P. rewrite Hl, Hf, Ha in P. destruct P as (C & D & R).
  eexists. split; [exact C|]. split; [apply last_last|].
  split; [exact R|exact D].
Qed.

(** X5. Fetching the same page again appends nothing more: on a ledger
    file that is missing or has a first line, two cycles with the same
    answer of the site leave the ledger that one cycle leaves. *)
Theorem repeated_page_appends_once (f : Fetch) (w : World)
    (Hw : csv w <> Some []) :
  csv (cycles [f; f] w) = csv (cycles [f] w).
Proof.
  cbn [cycles fold_left].
  pose proof (atualizar_resultados_files f w) as P. cbn zeta in P.
  pose proof (atualizar_resultados_files f (snd (atualizar_resultados f w)))
    as Q. cbn zeta in Q.
  remember (snd (atualizar_resultados f w)) as w1 eqn:Ew1. clear Ew1.
  destruct (last_draw w) as [[n d] r] eqn:L.
  destruct (last_draw w1) as [[n1 d1] r1] eqn:L1.
  destruct P as (C & _). destruct Q as (C1 & _).
  rewrite C1, C. f_equal.
  set (base := match csv w with Some rows => rows | None => [header] end)
    in *.
  assert (B : exists hd rest, base = hd :: rest).
  { unfold base. destruct (csv w) as [[|hd rest]|]; eauto. now destruct Hw. }
  destruct B as (hd & rest & B).
  destruct (fetched f) as [[novo|]|e] eqn:Hf; try reflexivity.
  destruct (is_new d novo) eqn:A.
  - assert (V : Calendar.valid (data_sorteio novo) = true)
      by (now apply fetched_valid_date with f).
    rewrite B in C. cbn [app] in C.
    apply (ler_after_append w1 hd rest (set_item0 (n + 1) novo)) in C;
      [|exact V].
    apply last_draw_of_read in C. rewrite L1 in C.
    injection C as -> -> ->. cbn [is_new data_sorteio set_item0].
    replace (Calendar.gt _ _) with false; [reflexivity|].
    symmetry. apply not_true_is_false. rewrite gt_later. unfold later. lia.
  - assert (E : csv w1 = csv w).
    { rewrite C. unfold base. destruct (csv w) as [rows|] eqn:Ew; auto.
      exfalso. unfold last_draw in L. rewrite ler_ultimo_sorteio_eq, Ew in L.
      cbn in L. injection L as _ <- _. discriminate A. }
    apply last_draw_csv in E. rewrite L, L1 in E. injection E as -> -> ->.
    now rewrite A.
Qed.

(** X6. Cycles only append: whatever the site answers, the records of an
    existing ledger file stay where they are, in order, and at most one
    record per cycle is added after them. *)
Theorem cycles_only_append (responses : list Fetch) :
  forall (w : World) (rows : list Row),
    csv w = Some rows ->
    exists added,
      csv (cycles responses w) = Some (rows ++ added) /\
      (List.length added <= List.length responses)%nat.
Proof.
  induction responses as [|f fs IH]; intros w rows Hw.
  - exists []. rewrite app_nil_r. split; [exact Hw|reflexivity].
  - cbn [cycles fold_left].
    pose proof (atualizar_resultados_files f w) as P. cbn zeta in P.
    destruct (last_draw w) as [[n d] r]. destruct P as (C & _).
    rewrite Hw in C.
    assert (S1 : exists a1, csv (snd (atualizar_resultados f w))
                            = Some (rows ++ a1) /\ (List.length a1 <= 1)%nat).
    { destruct (fetched f) as [[novo|]|e];
        try (exists []; rewrite app_nil_r; split; [exact C|cbn; lia]).
      destruct (is_new d novo).
      - eexists. split; [exact C|cbn; lia].
      - exists []. rewrite app_nil_r. split; [exact C|cbn; lia]. }
    destruct S1 as (a1 & C1 & N1).
    destruct (IH _ _ C1) as (a2 & C2 & N2).
    exists (a1 ++ a2). rewrite app_assoc. split; [exact C2|].
    rewrite length_app. cbn [List.length]. lia.
Qed.

(** X4. After a last record that cannot be parsed the numbering starts
    again: the read returns draw number 0 and no date, so every record the
    extractor returns is accepted, whatever its date, and is appended with
    draw number 1 after the records already there. *)
Theorem malformed_tail_restarts_numbering (f : Fetch) (novo : Dados)
    (w : World) (hd : Row) (rows : list Row) (r : Row)
    (Hw : csv w = Some (hd :: rows))
    (Hr : last (map Some (filter nonblank rows)) None = Some r)
    (Hbad : Text.int (nth 0 r "") = None \/
            forall field1, nth_error r 1 = Some field1 ->
                           Calendar.strptime_Ymd field1 = None)
    (Hf : fetched f = Ret (Some novo)) :
  csv (snd (atualizar_resultados f w))
  = Some (hd :: rows ++ ["1" :: tl (row_of_dados novo)]).
Proof.
  assert (L : last_draw w = no_draw).
  { destruct (last_some_nonblank _ _ Hr) as (f0 & fs & ->).
    unfold last_draw.
    rewrite ler_ultimo_sorteio_eq, Hw, last_record_filter, Hr.
    cbn [nth] in Hbad.
    destruct (Text.int f0) as [n|]; [|reflexivity].
    destruct Hbad as [Hbad|Hbad]; [discriminate|].
    destruct fs as [|f1 fs]; cbn [nth_error] in *; [reflexivity|].
    now rewrite (Hbad f1 eq_refl). }
  pose proof (atualizar_resultados_files f w) as P. cbn zeta in P.
  rewrite L, Hf, Hw in P. cbn [no_draw is_new] in P.
  destruct P as (C & _). exact C.
Qed.

(** X2. A ledger file that exists but holds no line at all, not even the
    header, is never repaired: the first record appended takes the place of
    the header, the next read does not see it, and the next record fetched
    is appended too, again with draw number 1 and whatever its date. *)
Theorem headerless_ledger_loses_first_record (f g : Fetch)
    (novo_f novo_g : Dados) (w : World)
    (Hw : csv w = Some [])
    (Hf : fetched f = Ret (Some novo_f))
    (Hg : fetched g = Ret (Some novo_g)) :
  csv (cycles [f] w) = Some ["1" :: tl (row_of_dados novo_f)] /\
  last_draw (cycles [f] w) = (0, None, None) /\
  csv (cycles [f; g] w)
  = Some ["1" :: tl (row_of_dados novo_f); "1" :: tl (row_of_dados novo_g)].
Proof.
  cbn [cycles fold_left].
  assert (L : last_draw w = no_draw).
  { unfold last_draw. now rewrite ler_ultimo_sorteio_eq, Hw. }
  pose proof (atualizar_resultados_files f w) as P. cbn zeta in P.
  rewrite L, Hf, Hw in P. cbn [no_draw is_new app] in P.
  destruct P as (C & _).
  assert (L1 : last_draw (snd (atualizar_resultados f w)) = no_draw).
  { unfold last_draw. now rewrite ler_ultimo_sorteio_eq, C. }
  split; [exact C|]. split; [exact L1|].
  pose proof (atualizar_resultados_files g (snd (atualizar_resultados f w)))
    as Q. cbn zeta in Q.
  rewrite L1, Hg, C in Q. cbn [no_draw is_new app] in Q.
  destruct Q as (C2 & _). exact C2.
Qed.

(** X20. The mirror does not drift from the ledger: if pandas reads every
    ledger that has a line, a mirror that is empty or holds the frame of
    the ledger is, after any number of cycles, again empty or holding the
    frame of the ledger as it then is. *)
Theorem mirror_follows_ledger (responses : list Fetch)
    (Hp : forall rows, rows <> [] -> exists df, read_frame rows = Ret df) :
  forall w : World,
    (db w = None \/
     exists rows df,
       csv w = Some rows /\ read_frame rows = Ret df /\ db w = Some df) ->
    db (cycles responses w) = None \/
    exists rows df,
      csv (cycles responses w) = Some rows /\
      read_frame rows = Ret df /\
      db (cycles responses w) = Some df.
Proof.
  induction responses as [|f fs IH]; intros w Hw; [exact Hw|].
  cbn [cycles fold_left]. apply IH.
  pose proof (atualizar_resultados_files f w) as P. cbn zeta in P.
  destruct (last_draw w) as [[n d] r]. destruct P as (C & D & _).
  rewrite C, D. clear C D.
  assert (Keep : db w = None \/
                 exists rows df,
                   Some match csv w with
                        | Some rows => rows
                        | None => [header]
                        end = Some rows /\
                   read_frame rows = Ret df /\ db w = Some df).
  { destruct Hw as [Hw|(rows & df & Cw & Rw & Dw)]; [now left|].
    right. exists rows, df. now rewrite Cw. }
  destruct (fetched f) as [[novo|]|e]; try exact Keep.
  destruct (is_new d novo); [|exact Keep].
  destruct (Hp (match csv w with Some rows => rows | None => [header] end
                ++ [row_of_dados (set_item0 (n + 1) novo)]))
    as (df & E).
  { intros Q. apply app_eq_nil in Q. destruct Q as [_ Q]. discriminate Q. }
  right. eexists. exists df. rewrite E. auto.
Qed.

End Files.

(** ** Dates in the ledger *)

Lemma later_trans (a b c : Calendar.date) : later a b -> later b c -> later a c.
Proof. unfold later. lia. Qed.

Lemma increasing_snoc (ds : list Calendar.date) (d : Calendar.date) :
  increasing ds -> (forall x, In x ds -> later d x) -> increasing (ds ++ [d]).
Proof.
  induction ds as [|a ds IH]; intros I B; cbn [app increasing].
  - split; [intros x []|exact I].
  - destruct I as [Ia I]. split.
    + intros x Hx. apply in_app_or in Hx. destruct Hx as [Hx|[<-|[]]].
      * now apply Ia.
      * apply B. now left.
    + apply IH; [exact I|]. intros x Hx. apply B. now right.
Qed.

Lemma chronicle_nil_inv (ds : list Calendar.date)
    (ultima : option Calendar.date) :
  chronicle [] ds ultima -> ultima = None.
Proof.
  intros C. remember [] as rows eqn:E.
  destruct C as [|rows ds ultima d fields C V L]; [reflexivity|].
  destruct rows; discriminate E.
Qed.

Lemma chronicle_bound (rows : list Row) (ds : list Calendar.date)
    (ultima : option Calendar.date) :
  chronicle rows ds ultima ->
  forall x, In x ds -> exists l, ultima = Some l /\ (x = l \/ later l x).
Proof.
  induction 1 as [|rows ds ultima d fields C IH V L]; intros x Hx;
    [destruct Hx|].
  exists d. split; [reflexivity|].
  apply in_app_or in Hx. destruct Hx as [Hx|[<-|[]]]; [|now left].
  right. destruct (IH x Hx) as (l & -> & [->|B]).
  - now apply L.
  - apply later_trans with l; [now apply L|exact B].
Qed.

Lemma chronicle_increasing (rows : list Row) (ds : list Calendar.date)
    (ultima : option Calendar.date) :
  chronicle rows ds ultima ->
  increasing ds /\ Forall (fun d => Calendar.valid d = true) ds.
Proof.
  induction 1 as [|rows ds ultima d fields C [I F] V L].
  - split; [exact I|constructor].
  - split.
    + apply increasing_snoc; [exact I|]. intros x Hx.
      destruct (chronicle_bound _ _ _ C x Hx) as (l & E & [->|B]).
      * now apply L.
      * apply later_trans with l; [now apply L|exact B].
    + apply Forall_app. split; [exact F|]. now repeat constructor.
Qed.

Lemma chronicle_dates (rows : list Row) (ds : list Calendar.date)
    (ultima : option Calendar.date) :
  chronicle rows ds ultima ->
  map (fun r => nth 1 r "") rows = map Calendar.isoformat ds.
Proof.
  induction 1 as [|rows ds ultima d fields C IH V L]; [reflexivity|].
  rewrite !map_app. cbn [map nth]. f_equal. exact IH.
Qed.

Lemma chronicle_read (w : World) (hd : Row) (rows : list Row)
    (ds : list Calendar.date) (ultima : option Calendar.date) :
  csv w = Some (hd :: rows) -> chronicle rows ds ultima ->
  exists r,
    ler_ultimo_sorteio w = (Ret (Z.of_nat (List.length rows), ultima, r), w).
Proof.
  intros Hw C. rewrite ler_ultimo_sorteio_eq, Hw.
  destruct C as [|rows ds ultima d fields C V L].
  - exists None. reflexivity.
  - rewrite last_record_snoc by reflexivity.
    rewrite int_str by lia. cbn [nth_error].
    rewrite strptime_isoformat by exact V.
    rewrite length_app. cbn [List.length].
    replace (List.length rows + 1)%nat with (S (List.length rows)) by lia.
    eauto.
Qed.

Section Chronicle.
Context `{Pandas}.

Lemma atualizar_resultados_chronicle (f : Fetch) (w : World)
    (rows : list Row) (ds : list Calendar.date)
    (ultima : option Calendar.date) :
  match csv w with Some l => l | None => [header] end = header :: rows ->
  chronicle rows ds ultima ->
  exists rows' ds' ultima',
    csv (snd (atualizar_resultados f w)) = Some (header :: rows') /\
    chronicle rows' ds' ultima'.
Proof.
  intros Hw C.
  pose proof (atualizar_resultados_files f w) as P. cbn zeta in P.
  assert (L : exists r, last_draw w
                        = (Z.of_nat (List.length rows), ultima, r)).
  { destruct w as [[l|] d0 o]; cbn [csv] in Hw.
    - subst l.
      destruct (chronicle_read (mkWorld (Some (header :: rows)) d0 o)
                  header rows ds ultima eq_refl C) as (r & R).
      exists r. now apply last_draw_of_read in R.
    - injection Hw as <-. apply chronicle_nil_inv in C. subst ultima.
      exists None. reflexivity. }
  destruct L as (r & L). rewrite L, Hw in P. destruct P as (P & _).
  destruct (fetched f) as [[novo|]|e] eqn:Hf; eauto.
  destruct (is_new ultima novo) eqn:A; eauto.
  exists (rows ++ [row_of_dados
                     (set_item0 (Z.of_nat (List.length rows) + 1) novo)]),
    (ds ++ [data_sorteio novo]), (Some (data_sorteio novo)).
  split; [exact P|].
  rewrite row_of_dados_set_item0.
  replace (Z.of_nat (List.length rows) + 1)
    with (Z.of_nat (S (List.length rows))) by lia.
  apply chronicle_snoc with ultima;
    [exact C|now apply fetched_valid_date with f|].
  intros l ->. cbn [is_new] in A. now apply gt_later.
Qed.

Lemma cycles_chronicle (responses : list Fetch) :
  forall (w : World) (rows : list Row) (ds : list Calendar.date)
         (ultima : option Calendar.date),
    csv w = Some (header :: rows) -> chronicle rows ds ultima ->
    exists rows' ds' ultima',
      csv (cycles responses w) = Some (header :: rows') /\
      chronicle rows' ds' ultima'.
Proof.
  induction responses as [|f fs IH]; intros w rows ds ultima Hw C; eauto.
  destruct (atualizar_resultados_chronicle f w rows ds ultima)
    as (rows1 & ds1 & u1 & C1 & K1); [now rewrite Hw|exact C|].
  exact (IH _ rows1 ds1 u1 C1 K1).
Qed.

(** X7. Starting on an empty ledger, whatever the site answers cycle after
    cycle, the column DATE holds dates of the calendar in ISO form, each
    strictly later than all the dates above it. *)
Theorem ledger_dates_increase (responses : list Fetch) (w : World)
    (Hw : csv w = None \/ csv w = Some [header]) :
  exists ds,
    date_column (cycles responses w) = map Calendar.isoformat ds /\
    increasing ds /\
    Forall (fun d => Calendar.valid d = true) ds.
Proof.
  destruct responses as [|f fs].
  - exists []. unfold date_column. cbn [cycles fold_left].
    destruct Hw as [-> | ->]; repeat split; constructor.
  - change (cycles (f :: fs) w)
      with (cycles fs (snd (atualizar_resultados f w))).
    destruct (atualizar_resultados_chronicle f w [] [] None)
      as (rows1 & ds1 & u1 & C1 & K1).
    + destruct Hw as [-> | ->]; reflexivity.
    + constructor.
    + destruct (cycles_chronicle fs _ rows1 ds1 u1 C1 K1)
        as (rows2 & ds2 & u2 & C2 & K2).
      exists ds2. unfold date_column. rewrite C2.
      split; [now apply chronicle_dates with u2|].
      now apply chronicle_increasing with rows2 u2.
Qed.

End Chronicle.

(** ** The steps of the extractor, one by one *)

Lemma quiet_fst {A} (m : M A) (w : World) :
  quiet m -> fst (m w) = fst (m blank_world).
Proof. intros (r & outs & P). now rewrite !P. Qed.

Lemma parse_data_info_fst (text : string) (w : World) :
  fst (parse_data_info text w) =
  let sorteio_texto := Text.strip text in
  match nth_error (Text.split "Sorteio: " sorteio_texto) 1 with
  | None => Raise IndexError
  | Some after =>
      match Text.int (nth 0 (Text.split "/" after) "") with
      | None => Raise ValueError
      | Some n =>
          match nth_error (Text.split "Data do Sorteio - " sorteio_texto) 1
          with
          | None => Raise IndexError
          | Some ds =>
              match Calendar.strptime_dmY ds with
              | None => Raise ValueError
              | Some d => Ret (n, d)
              end
          end
      end
  end.
Proof.
  cbn zeta. unfold parse_data_info.
  rewrite bind_run. destruct (nth_error _ 1) as [after|]; [|reflexivity].
  cbn [or_raise ret]. rewrite bind_run.
  destruct (Text.int _) as [k|]; [|reflexivity].
  cbn [or_raise ret]. rewrite bind_run.
  destruct (nth_error _ 1) as [ds|]; [|reflexivity].
  cbn [or_raise ret]. rewrite bind_run.
  destruct (Calendar.strptime_dmY ds) as [d0|]; reflexivity.
Qed.

Lemma parse_resultados_fst (s : Soup) (w : World) :
  fst (parse_resultados s w) =
  Ret match bet_middle s with
      | Some (Some todas_li) =>
          if 2 <=? Z.of_nat (List.length todas_li) then
            match Text.split "+" (nth 1 todas_li "") with
            | [parte0; parte1] =>
                Some (map Text.strip (Text.split_ws (Text.strip parte0)),
                      map Text.strip (Text.split_ws (Text.strip parte1)))
            | _ => None
            end
          else None
      | _ => None
      end.
Proof.
  unfold parse_resultados.
  destruct (bet_middle s) as [[lis|]|]; try reflexivity.
  destruct (2 <=? _); [|reflexivity].
  rewrite bind_run, print_run.
  destruct (Text.split "+" (nth 1 lis "")) as [|p0 [|p1 [|p2 ps]]];
    reflexivity.
Qed.

Lemma parse_vencedores_fst (s : Soup) (w : World) :
  fst (parse_vencedores s w) =
  match premio_ul s with
  | Some (li :: _) =>
      if Text.isdigit (Text.strip li) then
        match Text.int (Text.strip li) with
        | Some n => Ret n
        | None => Raise ValueError
        end
      else Ret 0
  | _ => Ret 0
  end.
Proof.
  unfold parse_vencedores.
  destruct (premio_ul s) as [[|li lis]|]; try reflexivity.
  destruct (Text.isdigit _); [|reflexivity].
  destruct (Text.int _); reflexivity.
Qed.

(** The extractor on an answer with status 200, step by step. *)
Lemma fetched_200 (soup : Soup) :
  fetched (Response 200 soup) =
  match data_info soup with
  | None => Ret None
  | Some text =>
      match fst (parse_data_info text blank_world) with
      | Raise e => Raise e
      | Ret (n, d) =>
          match fst (parse_resultados soup blank_world) with
          | Raise e => Raise e
          | Ret None => Ret None
          | Ret (Some (ns, es)) =>
              match fst (parse_vencedores soup blank_world) with
              | Raise e => Raise e
              | Ret v =>
                  Ret (Some (mkDados n d (Calendar.strftime_Ym d) ns es v
                               (if Calendar.weekday d =? 4
                                then Sexta_Feira else Terca_Feira)))
              end
          end
      end
  end.
Proof.
  unfold fetched. cbn [obter_resultados Z.eqb Pos.eqb].
  destruct (data_info soup) as [text|]; [|reflexivity].
  rewrite bind_run.
  destruct (quiet_parse_data_info text) as (r1 & o1 & H1). rewrite !H1.
  cbn [fst]. destruct r1 as [[n d]|e]; [|reflexivity].
  rewrite bind_run.
  destruct (quiet_parse_resultados soup) as (r2 & o2 & H2). rewrite !H2.
  cbn [fst]. destruct r2 as [[[ns es]|]|e]; try reflexivity.
  rewrite bind_run.
  destruct (quiet_parse_vencedores soup) as (r3 & o3 & H3). rewrite !H3.
  cbn [fst]. destruct r3 as [v|e]; [|reflexivity].
  rewrite bind_run, print_run. cbn [fst ret].
  now rewrite strftime_A_friday.
Qed.

Lemma fetched_not_200 (status : Z) (soup : Soup) :
  status <> 200 -> fetched (Response status soup) = Ret None.
Proof.
  intros N. unfold fetched. cbn [obter_resultados].
  apply Z.eqb_neq in N. now rewrite N.
Qed.

(** ** Occurrences of a separator *)


Lemma split_without_occurrence (sep s : string) :
  forall cur,
    occurs sep s = false ->
    Text.split_from sep 0 cur s = [(cur ++ s)%string].
Proof.
  induction s as [|c r IH]; intros cur O.
  - cbn. now rewrite append_empty_r.
  - cbn [occurs] in O. apply orb_false_iff in O. destruct O as [P O].
    cbn [Text.split_from]. rewrite P, (IH _ O). now rewrite append_assoc.
Qed.

Lemma split_second_missing (sep s : string) :
  occurs sep s = false -> nth_error (Text.split sep s) 1 = None.
Proof.
  intros O. unfold Text.split.
  now rewrite (split_without_occurrence _ _ EmptyString O).
Qed.


(** ** Further properties of the extractor *)

(** X9. The extractor reads nothing but the answer of the site: what it
    returns is the same whatever the files hold, and it leaves the ledger
    and the mirror as they are. *)
Theorem extractor_reads_only_the_page (f : Fetch) (w1 w2 : World) :
  fst (obter_resultados f w1) = fst (obter_resultados f w2) /\
  csv (snd (obter_resultados f w1)) = csv w1 /\
  db (snd (obter_resultados f w1)) = db w1.
Proof.
  destruct (obter_resultados_fetched f) as (outs & E).
  rewrite !E. repeat split.
Qed.

(** X10. The extractor returns nothing, without raising, in these cases
    and no others: the status is not 200; the page has no header span; or
    the header is read and the results are not there as the second item of
    the list, or do not hold exactly one "+". *)
Theorem extractor_returns_none_iff (status : Z) (soup : Soup) :
  fetched (Response status soup) = Ret None <->
  status <> 200 \/
  data_info soup = None \/
  exists text nd,
    data_info soup = Some text /\
    fst (parse_data_info text blank_world) = Ret nd /\
    match bet_middle soup with
    | Some (Some todas_li) =>
        (List.length todas_li < 2)%nat \/
        Text.count_char "+" (nth 1 todas_li "") <> 1%nat
    | _ => True
    end.
Proof.
  destruct (Z.eq_dec status 200) as [->|N];
    [|split; [now left|intros _; now apply fetched_not_200]].
  rewrite fetched_200.
  destruct (data_info soup) as [text|] eqn:DI; [|split; auto].
  destruct (fst (parse_data_info text blank_world)) as [[n d]|e] eqn:P.
  - rewrite parse_resultados_fst.
    destruct (bet_middle soup) as [[lis|]|] eqn:B;
      try (split; [intros _; right; right; exists text, (n, d); auto
                  |reflexivity]).
    destruct (2 <=? Z.of_nat (List.length lis)) eqn:L.
    + apply Z.leb_le in L.
      pose proof (split_char_length "+" (nth 1 lis "")) as S.
      destruct (Text.split "+" (nth 1 lis "")) as [|p0 [|p1 [|p2 ps]]];
        cbn [List.length] in S;
        try (split; [intros _; right; right; exists text, (n, d);
                     split; [reflexivity|]; split; [exact P|];
                     right; lia
                    |reflexivity]).
      split.
      * destruct (fst (parse_vencedores soup blank_world)); discriminate.
      * intros [C|[C|(t & nd & _ & _ & [C|C])]];
          try discriminate; lia.
    + apply Z.leb_gt in L.
      split; [intros _; right; right; exists text, (n, d);
              split; [reflexivity|]; split; [exact P|]; left; lia
             |reflexivity].
  - split; [discriminate|].
    intros [C|[C|(t & nd & T & Q & _)]]; try discriminate; [now destruct C|].
    injection T as <-. rewrite P in Q. discriminate.
Qed.

Lemma digits_from_lower_bound (s : string) :
  forall (acc : Z) (p : bool) (v : Z),
    0 <= acc -> Text.digits_from acc p s = Some v -> 0 <= v.
Proof.
  induction s as [|c r IH]; intros acc p v A; cbn [Text.digits_from].
  - destruct p; [|discriminate]. intros Q. injection Q as <-. exact A.
  - destruct (Text.isdecimal c) eqn:D.
    + apply IH. unfold Text.isdecimal, Text.in_range in D. lia.
    + destruct (Text.is_char "_" c && p); [now apply IH|discriminate].
Qed.

Lemma int_of_isdigit (s : string) (v : Z) :
  Text.isdigit s = true -> Text.int s = Some v -> 0 <= v.
Proof.
  destruct s as [|c r]; [discriminate|]. cbn [Text.isdigit Text.all_chars].
  intros A. apply andb_true_iff in A. destruct A as [A _].
  unfold Text.int. cbn [Text.lstrip_by].
  assert (NS : Text.isspace_int c = false).
  { unfold Text.isdigit_char, Text.isdecimal, Text.isspace_int,
      Text.in_range in *. lia. }
  rewrite NS. cbn [Text.rstrip_by]. rewrite NS.
  assert (T : exists t,
             match Text.rstrip_by Text.isspace_int r with
             | EmptyString => String c EmptyString
             | String a t0 => String c (String a t0)
             end = String c t)
    by (destruct (Text.rstrip_by _ r); eauto).
  destruct T as (t & ->).
  destruct c as [[] [] [] [] [] [] [] []]; try discriminate A;
    intros E; apply digits_from_lower_bound in E; lia.
Qed.

(** X11. The number of winners of a record is never negative, and it is 0
    when the page has no winners item or its text is not made of digits. *)
Theorem winner_count_never_negative (f : Fetch) (novo : Dados)
    (Hf : fetched f = Ret (Some novo)) :
  0 <= numero_vencedores novo /\
  forall status soup,
    f = Response status soup ->
    match premio_ul soup with
    | Some (li :: _) => Text.isdigit (Text.strip li) = false
    | _ => True
    end ->
    numero_vencedores novo = 0.
Proof.
  destruct (fetched_some _ _ Hf)
    as (soup & text & lis & p0 & p1 & -> & _ & _ & _ & _ & _ & _ & _ & V & _).
  rewrite parse_vencedores_fst in V. split.
  - destruct (premio_ul soup) as [[|li rest]|];
      try (injection V as <-; lia).
    destruct (Text.isdigit (Text.strip li)) eqn:D;
      [|injection V as <-; lia].
    destruct (Text.int (Text.strip li)) as [n|] eqn:I; [|discriminate].
    injection V as <-. now apply int_of_isdigit with (Text.strip li).
  - intros status soup' E P. injection E as _ <-.
    destruct (premio_ul soup) as [[|li rest]|];
      try (now injection V as <-).
    rewrite P in V. now injection V as <-.
Qed.

(** X12. Of the list of results only the second item is read: two pages
    that agree on the header, on the winners and on the second item of the
    list give the same result, whatever their first item and whatever
    follows the second. *)
Theorem only_second_item_is_read (status : Z) (soup1 soup2 : Soup)
    (lis1 lis2 : list string)
    (Hinfo : data_info soup1 = data_info soup2)
    (Hwin : premio_ul soup1 = premio_ul soup2)
    (H1 : bet_middle soup1 = Some (Some lis1))
    (H2 : bet_middle soup2 = Some (Some lis2))
    (L1 : (2 <= List.length lis1)%nat)
    (L2 : (2 <= List.length lis2)%nat)
    (Hitem : nth 1 lis1 "" = nth 1 lis2 "") :
  fetched (Response status soup1) = fetched (Response status soup2).
Proof.
  destruct (Z.eq_dec status 200) as [->|N];
    [|now rewrite !fetched_not_200].
  rewrite !fetched_200, !parse_resultados_fst, !parse_vencedores_fst.
  rewrite Hinfo, Hwin, H1, H2, Hitem.
  replace (2 <=? Z.of_nat (List.length lis1)) with true by lia.
  replace (2 <=? Z.of_nat (List.length lis2)) with true by lia.
  reflexivity.
Qed.



Section Escapes.
Context `{Pandas}.

(** X13. A header text without the marker "Sorteio: " makes the extractor
    raise IndexError instead of returning nothing, and one without the
    marker "Data do Sorteio - " makes it raise too; the exception leaves
    the cycle, which has appended nothing. *)
Theorem header_without_markers_raises (soup : Soup) (text : string)
    (w : World)
    (Hinfo : data_info soup = Some text)
    (Hmark : occurs "Sorteio: " (Text.strip text) = false \/
             occurs "Data do Sorteio - " (Text.strip text) = false) :
  exists e,
    (e = IndexError \/ e = ValueError) /\
    (occurs "Sorteio: " (Text.strip text) = false -> e = IndexError) /\
    fetched (Response 200 soup) = Raise e /\
    fst (atualizar_resultados (Response 200 soup) w) = Raise e /\
    csv (snd (atualizar_resultados (Response 200 soup) w))
    = Some (match csv w with Some rows => rows | None => [header] end).
Proof.
  assert (F : exists e,
             (e = IndexError \/ e = ValueError) /\
             (occurs "Sorteio: " (Text.strip text) = false -> e = IndexError)
             /\ fetched (Response 200 soup) = Raise e).
  { rewrite fetched_200, Hinfo, parse_data_info_fst. cbn zeta.
    destruct (occurs "Sorteio: " (Text.strip text)) eqn:O1.
    - destruct Hmark as [Hmark|O2]; [discriminate|].
      rewrite (split_second_missing "Data do Sorteio - " _ O2).
      destruct (nth_error (Text.split "Sorteio: " _) 1) as [after|];
        [|exists IndexError; repeat split; auto; discriminate].
      destruct (Text.int _);
        [exists IndexError|exists ValueError]; repeat split; auto;
        discriminate.
    - rewrite (split_second_missing "Sorteio: " _ O1).
      exists IndexError. auto. }
  destruct F as (e & E1 & E2 & E3). exists e.
  pose proof (atualizar_resultados_files (Response 200 soup) w) as P.
  cbn zeta in P. destruct (last_draw w) as [[n d] r].
  rewrite E3 in P. destruct P as (C & _ & R). auto.
Qed.

End Escapes.

(** ** The mirror file and the menu *)

Lemma lower_is_s (i : string) : lower i = "s" <-> i = "s" \/ i = "S".
Proof.
  split.
  - destruct i as [|c r]; [discriminate|]. cbn [lower]. intros E.
    injection E as Ec Er. destruct r; [|discriminate Er].
    destruct c as [[] [] [] [] [] [] [] []]; try discriminate Ec; auto.
  - intros [-> | ->]; reflexivity.
Qed.

Section Menu.
Context `{Pandas}.

Lemma on_disk_import (d : Disk) :
  on_disk import_from_csv d =
  match ledger_file d with
  | None => (Ret 0, show [Core CsvNaoEncontrado] d)
  | Some rows =>
      match read_frame rows with
      | Ret df => (Ret (len_frame df), set_mirror (Table df) d)
      | Raise e => (Ret 0, show [Core (ErroImportar e)] d)
      end
  end.
Proof.
  unfold on_disk. rewrite import_from_csv_eq. cbn [csv].
  destruct d as [[rows|] m o]; cbn [ledger_file mirror_file screen].
  - destruct (read_frame rows) as [df|e]; unfold set_mirror, show; cbn.
    + now rewrite app_nil_r.
    + destruct m; reflexivity.
  - unfold show; cbn. destruct m; reflexivity.
Qed.

(** A cycle on the disk: the ledger it leaves, and the table it leaves
    when there was one. *)
Lemma on_disk_atualizar (f : Fetch) (d : Disk) :
  let w := mkWorld (ledger_file d) (table_of (mirror_file d)) [] in
  fst (on_disk (atualizar_resultados f) d) = fst (atualizar_resultados f w) /\
  ledger_file (snd (on_disk (atualizar_resultados f) d))
  = csv (snd (atualizar_resultados f w)) /\
  (forall df, mirror_file d = Table df ->
     exists df', mirror_file (snd (on_disk (atualizar_resultados f) d))
                 = Table df').
Proof.
  cbn zeta. unfold on_disk.
  pose proof (atualizar_resultados_files f
                (mkWorld (ledger_file d) (table_of (mirror_file d)) [])) as P.
  cbn zeta in P. destruct (last_draw _) as [[n u] r].
  destruct P as (_ & D & _).
  destruct (atualizar_resultados f _) as [res w']. cbn [fst snd] in *.
  split; [reflexivity|]. split; [reflexivity|].
  intros df E. cbn [mirror_file]. rewrite D, E. cbn [db table_of].
  destruct (fetched f) as [[novo|]|e]; eauto.
  destruct (is_new u novo); eauto.
  destruct (read_frame _); eauto.
Qed.

(** X15. The mirror can be thrown away: when pandas reads the ledger, an
    import after clearing the table, after deleting the file, or on the
    mirror as it was gives the same table, and returns its number of
    records. *)
Theorem mirror_rebuilt_after_removal (d : Disk) (rows : list Row)
    (df : Frame)
    (Hl : ledger_file d = Some rows)
    (Hp : read_frame rows = Ret df) :
  on_disk import_from_csv d = (Ret (len_frame df), set_mirror (Table df) d)
  /\
  (forall d', d' = clear_database d \/ d' = delete_database d ->
     fst (on_disk import_from_csv d') = Ret (len_frame df) /\
     mirror_file (snd (on_disk import_from_csv d')) = Table df /\
     ledger_file (snd (on_disk import_from_csv d')) = Some rows).
Proof.
  split; [now rewrite on_disk_import, Hl, Hp|].
  intros d' [-> | ->]; rewrite on_disk_import;
    unfold clear_database, delete_database;
    destruct (mirror_file d); cbn [show set_mirror ledger_file];
    rewrite Hl, Hp; repeat split; assumption.
Qed.

(** X18. After an import that pandas could do, viewing the mirror prints
    the number of records the import returned, then the first five and the
    last five records, which are all the records when there are at most
    five. *)
Theorem view_shows_imported_table (d : Disk) (rows : list Row) (df : Frame)
    (Hl : ledger_file d = Some rows)
    (Hp : read_frame rows = Ret df) :
  let after := snd (on_disk import_from_csv d) in
  fst (on_disk import_from_csv d) = Ret (len_frame df) /\
  view_database after
  = show [InfoBanco; TotalRegistros (len_frame df); PrimeirosRegistros;
          Head (head_frame df); UltimosRegistros; Tail (tail_frame df)]
      after /\
  ((List.length (records df) <= 5)%nat ->
   head_frame df = df /\ tail_frame df = df).
Proof.
  cbn zeta. rewrite on_disk_import, Hl, Hp. cbn [fst snd].
  split; [reflexivity|]. split; [reflexivity|].
  intros L. destruct df as [cols recs]. cbn [records] in L.
  unfold head_frame, tail_frame. cbn [columns records].
  rewrite firstn_all2 by exact L.
  replace (List.length recs - 5)%nat with 0%nat by lia.
  split; reflexivity.
Qed.

Lemma main_loop_by_length (P : list string -> Prop) :
  (forall inputs,
      (forall shorter,
          (List.length shorter < List.length inputs)%nat -> P shorter) ->
      P inputs) ->
  forall inputs, P inputs.
Proof.
  intros Step inputs.
  assert (G : forall n l, (List.length l < n)%nat -> P l).
  { induction n as [|n IH]; intros l L; [lia|].
    apply Step. intros s Ls. apply IH. lia. }
  apply (G (S (List.length inputs))). lia.
Qed.

(** X16. Only option 5 writes the ledger or asks the site: a session in
    which "5" is never typed leaves the ledger file as it was and ends by
    option 6 or at the end of the input, never by an exception. *)
Theorem only_option_5_writes_ledger (inputs : list string)
    (site : nat -> Fetch) (k : nat) (d : Disk)
    (H5 : ~ In "5" inputs) :
  ledger_file (snd (main_loop inputs site k d)) = ledger_file d /\
  (fst (main_loop inputs site k d) = Quit \/
   fst (main_loop inputs site k d) = EndOfInput).
Proof.
  revert k d H5. pattern inputs. apply main_loop_by_length.
  clear inputs. intros inputs IH k d H5.
  destruct inputs as [|opcao rest]; [cbn; auto|].
  assert (R : ~ In "5" rest) by (intros N; apply H5; now right).
  assert (O : String.eqb opcao "5" = false).
  { apply String.eqb_neq. intros ->. apply H5. now left. }
  cbn [main_loop]. rewrite O.
  destruct (String.eqb opcao "1").
  { rewrite (proj1 (IH rest ltac:(cbn; lia) k _ R)). split.
    - unfold view_database. now destruct (mirror_file _).
    - apply IH; [cbn; lia|exact R]. }
  destruct (String.eqb opcao "2").
  { destruct rest as [|confirma rest]; [cbn; auto|].
    assert (R' : ~ In "5" rest) by (intros N; apply R; now right).
    destruct (String.eqb (lower confirma) "s");
      rewrite (proj1 (IH rest ltac:(cbn; lia) k _ R')); split;
        try (apply IH; [cbn; lia|exact R']); try reflexivity.
    unfold clear_database. now destruct (mirror_file _). }
  destruct (String.eqb opcao "3").
  { destruct rest as [|confirma rest]; [cbn; auto|].
    assert (R' : ~ In "5" rest) by (intros N; apply R; now right).
    destruct (String.eqb (lower confirma) "s");
      rewrite (proj1 (IH rest ltac:(cbn; lia) k _ R')); split;
        try (apply IH; [cbn; lia|exact R']); try reflexivity.
    unfold delete_database. now destruct (mirror_file _). }
  destruct (String.eqb opcao "4").
  { rewrite on_disk_import. cbn [show ledger_file].
    destruct (ledger_file d) as [rows|] eqn:E;
      [destruct (read_frame rows)|];
      rewrite (proj1 (IH rest ltac:(cbn; lia) k _ R)); split;
        try (apply IH; [cbn; lia|exact R]); cbn; auto. }
  destruct (String.eqb opcao "6"); [cbn; auto|].
  rewrite (proj1 (IH rest ltac:(cbn; lia) k _ R)). split; [reflexivity|].
  apply IH; [cbn; lia|exact R].
Qed.

(** X17. The table of the mirror is dropped only on an answer "s" or "S":
    in a session in which neither is typed a mirror that has its table
    still has one at the end, whatever else is chosen. *)
Theorem table_survives_without_confirmation (inputs : list string)
    (site : nat -> Fetch) (k : nat) (d : Disk) (df : Frame)
    (Hs : forall i, In i inputs -> i <> "s" /\ i <> "S")
    (Hm : mirror_file d = Table df) :
  exists df', mirror_file (snd (main_loop inputs site k d)) = Table df'.
Proof.
  revert k d df Hs Hm. pattern inputs. apply main_loop_by_length.
  clear inputs. intros inputs IH k d df Hs Hm.
  destruct inputs as [|opcao rest]; [cbn; eauto|].
  assert (R : forall i, In i rest -> i <> "s" /\ i <> "S")
    by (intros i Hi; apply Hs; now right).
  cbn [main_loop].
  destruct (String.eqb opcao "1").
  { apply (IH rest ltac:(cbn; lia) k _ df R).
    unfold view_database. cbn [show mirror_file]. now rewrite Hm. }
  destruct (String.eqb opcao "2").
  { destruct rest as [|confirma rest]; [cbn; eauto|].
    assert (R' : forall i, In i rest -> i <> "s" /\ i <> "S")
      by (intros i Hi; apply R; now right).
    destruct (String.eqb (lower confirma) "s") eqn:C.
    - apply String.eqb_eq, lower_is_s in C.
      destruct (R confirma ltac:(now left)) as [N1 N2].
      destruct C; contradiction.
    - now apply (IH rest ltac:(cbn; lia) k _ df R'). }
  destruct (String.eqb opcao "3").
  { destruct rest as [|confirma rest]; [cbn; eauto|].
    assert (R' : forall i, In i rest -> i <> "s" /\ i <> "S")
      by (intros i Hi; apply R; now right).
    destruct (String.eqb (lower confirma) "s") eqn:C.
    - apply String.eqb_eq, lower_is_s in C.
      destruct (R confirma ltac:(now left)) as [N1 N2].
      destruct C; contradiction.
    - now apply (IH rest ltac:(cbn; lia) k _ df R'). }
  destruct (String.eqb opcao "4").
  { rewrite on_disk_import. cbn [show ledger_file].
    destruct (ledger_file d) as [rows|];
      [destruct (read_frame rows) as [df1|e]|].
    - now apply (IH rest ltac:(cbn; lia) k _ df1 R).
    - now apply (IH rest ltac:(cbn; lia) k _ df R).
    - now apply (IH rest ltac:(cbn; lia) k _ df R). }
  destruct (String.eqb opcao "5").
  { destruct (on_disk_atualizar (site k) (show menu d)) as (_ & _ & T).
    destruct (T df Hm) as (df1 & T1).
    destruct (on_disk (atualizar_resultados (site k)) (show menu d))
      as [[[]|e] d1]; cbn [snd] in *; [|eauto].
    now apply (IH rest ltac:(cbn; lia) (S k) d1 df1 R). }
  destruct (String.eqb opcao "6"); [cbn; eauto|].
  now apply (IH rest ltac:(cbn; lia) k _ df R).
Qed.

(** X19. The methods of the menu raise nothing themselves: the loop ends
    by an exception only when the extractor raised it on some answer of
    the site, and by option 6 only when "6" was typed. *)
Theorem main_loop_endings (inputs : list string) (site : nat -> Fetch)
    (k : nat) (d : Disk) :
  (forall e, fst (main_loop inputs site k d) = Uncaught e ->
             exists j, fetched (site j) = Raise e) /\
  (fst (main_loop inputs site k d) = Quit -> In "6" inputs).
Proof.
  revert k d. pattern inputs. apply main_loop_by_length.
  clear inputs. intros inputs IH k d.
  destruct inputs as [|opcao rest];
    [cbn; split; [discriminate 1|discriminate]|].
  assert (Up : forall k' d',
             (forall e, fst (main_loop rest site k' d') = Uncaught e ->
                        exists j, fetched (site j) = Raise e) /\
             (fst (main_loop rest site k' d') = Quit ->
              In "6" (opcao :: rest))).
  { intros k' d'. destruct (IH rest ltac:(cbn; lia) k' d') as [A B].
    split; [exact A|]. intros Q. right. now apply B. }
  cbn [main_loop].
  destruct (String.eqb opcao "1"); [apply Up|].
  destruct (String.eqb opcao "2").
  { destruct rest as [|confirma rest];
      [cbn; split; [discriminate 1|discriminate]|].
    assert (Up2 : forall k' d',
               (forall e, fst (main_loop rest site k' d') = Uncaught e ->
                          exists j, fetched (site j) = Raise e) /\
               (fst (main_loop rest site k' d') = Quit ->
                In "6" (opcao :: confirma :: rest))).
    { intros k' d'. destruct (IH rest ltac:(cbn; lia) k' d') as [A B].
      split; [exact A|]. intros Q. right. right. now apply B. }
    destruct (String.eqb (lower confirma) "s"); apply Up2. }
  destruct (String.eqb opcao "3").
  { destruct rest as [|confirma rest];
      [cbn; split; [discriminate 1|discriminate]|].
    assert (Up2 : forall k' d',
               (forall e, fst (main_loop rest site k' d') = Uncaught e ->
                          exists j, fetched (site j) = Raise e) /\
               (fst (main_loop rest site k' d') = Quit ->
                In "6" (opcao :: confirma :: rest))).
    { intros k' d'. destruct (IH rest ltac:(cbn; lia) k' d') as [A B].
      split; [exact A|]. intros Q. right. right. now apply B. }
    destruct (String.eqb (lower confirma) "s"); apply Up2. }
  destruct (String.eqb opcao "4").
  { rewrite on_disk_import.
    destruct (ledger_file _) as [rows|];
      [destruct (read_frame rows)|]; apply Up. }
  destruct (String.eqb opcao "5").
  { destruct (on_disk_atualizar (site k) (show menu d)) as (F & _ & _).
    pose proof (atualizar_resultados_files (site k)
                  (mkWorld (ledger_file (show menu d))
                     (table_of (mirror_file (show menu d))) [])) as P.
    cbn zeta in P. destruct (last_draw _) as [[n u] r].
    destruct P as (_ & _ & P). rewrite P in F.
    destruct (on_disk (atualizar_resultados (site k)) (show menu d))
      as [[[]|e] d1]; cbn [fst snd] in *; [apply Up|].
    split; [|discriminate]. intros e' Q. injection Q as <-.
    exists k. destruct (fetched (site k)) as [o|e0]; [discriminate|].
    now injection F as ->. }
  destruct (String.eqb opcao "6") eqn:E6.
  { cbn. split; [discriminate 1|]. intros _. left.
    now apply String.eqb_eq. }
  apply Up.
Qed.

End Menu.

(** * Runs on sample pages and ledgers *)

#[local] Existing Instance sample_pandas.

Lemma date_gated_acceptance_witness :
  fetched page_21_may = Ret (Some novo_21_may) /\
  exists rows,
    csv (snd (atualizar_resultados page_21_may ledger_14_may))
    = Some (rows ++ [row_of_dados (set_item0 2 novo_21_may)]).
Proof.
  split; [reflexivity|].
  pose proof (date_gated_acceptance page_21_may novo_21_may ledger_14_may
                eq_refl) as P.
  change (last_draw ledger_14_may)
    with (1, Some (Calendar.mkdate 2024 5 14), Some row_14_may) in P.
  cbv beta iota zeta in P.
  destruct P as (rows & outs & _ & _ & A & _).
  exists rows. apply A. right. exists (Calendar.mkdate 2024 5 14).
  split; [reflexivity|]. unfold later. cbn. lia.
Defined.

Lemma draw_numbers_count_from_one_witness :
  csv blank_world = None /\
  draw_number_column
    (cycles [page_14_may; page_14_may; NoAnswer; page_404; page_21_may]
       blank_world)
  = ["1"; "2"].
Proof.
  split; [reflexivity|].
  exact (proj2 (draw_numbers_count_from_one
                  [page_14_may; page_14_may; NoAnswer; page_404; page_21_may]
                  blank_world (or_introl eq_refl))).
Defined.

Lemma fetch_fault_appends_nothing_witness :
  (forall novo, fetched page_no_plus <> Ret (Some novo)) /\
  csv (snd (atualizar_resultados page_no_plus ledger_14_may))
  = csv ledger_14_may /\
  db (snd (atualizar_resultados page_no_plus ledger_14_may))
  = db ledger_14_may.
Proof.
  assert (Hf : forall novo, fetched page_no_plus <> Ret (Some novo)).
  { intros novo Q. vm_compute in Q. discriminate Q. }
  split; [exact Hf|].
  exact (proj2 (fetch_fault_appends_nothing page_no_plus ledger_14_may Hf)).
Defined.

(** C3, as stated, fails: the results text has no "+" and there is no
    ledger file; the cycle ends without a record, and the ledger file has
    been created. *)
Lemma fetch_fault_creates_missing_ledger :
  fetched page_no_plus = Ret None /\
  csv blank_world = None /\
  csv (snd (atualizar_resultados page_no_plus blank_world)) = Some [header] /\
  csv (snd (atualizar_resultados page_no_plus blank_world))
  <> csv blank_world.
Proof.
  split; [reflexivity|]. split; [reflexivity|]. split; [reflexivity|].
  intros Q. vm_compute in Q. discriminate Q.
Qed.

Lemma malformed_last_row_caught_witness :
  csv ledger_bad_number
  = Some (header :: [row_14_may; ["abc"; "2024-05-21"]]) /\
  exists e,
    ler_ultimo_sorteio ledger_bad_number
    = (Ret (0, None, None), add_out [ErroLerCSV e] ledger_bad_number).
Proof.
  split; [reflexivity|].
  destruct (malformed_last_row_caught ledger_bad_number header
              [row_14_may; ["abc"; "2024-05-21"]] ["abc"; "2024-05-21"]
              eq_refl eq_refl (or_introl eq_refl)) as (e & _ & E).
  exists e. exact E.
Defined.

(** C4, as stated, fails: the last record has "abc" for draw number; the
    read returns the result of an empty ledger, (0, None, None), after
    printing the error, and raises nothing. *)
Lemma malformed_last_row_reads_as_empty :
  Text.int "abc" = None /\
  ler_ultimo_sorteio ledger_bad_number
  = (Ret (0, None, None),
     mkWorld (csv ledger_bad_number) None [ErroLerCSV ValueError]) /\
  fst (ler_ultimo_sorteio ledger_bad_number)
  = fst (ler_ultimo_sorteio header_only).
Proof. repeat split; reflexivity. Qed.

Lemma results_text_split_on_plus_witness :
  Text.count_char "+" "1 2 3 4 5 6 7" <> 1%nat /\
  exists outs, forall w,
    obter_resultados (Response 200 soup_no_plus) w
    = (Ret None, add_out (outs ++ [FormatoIncorreto]) w).
Proof.
  assert (C : Text.count_char "+" "1 2 3 4 5 6 7" <> 1%nat)
    by (vm_compute; discriminate).
  split; [exact C|].
  exact (proj1 (results_text_split_on_plus soup_no_plus
                  "Sorteio: 039/2024 Data do Sorteio - 14/05/2024"
                  ["Chave"; "1 2 3 4 5 6 7"] (39, Calendar.mkdate 2024 5 14)
                  eq_refl eq_refl eq_refl (le_n 2)) C).
Defined.

Lemma numbers_are_tokens_of_results_text_witness :
  fetched page_14_may = Ret (Some novo_14_may) /\
  exists parte0 parte1,
    numeros novo_14_may
    = map Text.strip (Text.split_ws (Text.strip parte0)) /\
    estrelas novo_14_may
    = map Text.strip (Text.split_ws (Text.strip parte1)).
Proof.
  split; [reflexivity|].
  destruct (numbers_are_tokens_of_results_text page_14_may novo_14_may
              eq_refl) as (soup & lis & p0 & p1 & _ & _ & _ & _ & N & E & _).
  exists p0, p1. split; [exact N|exact E].
Defined.

(** C6, as stated, fails: the results text "1 2 3+4" is accepted; the
    record has three numbers and one star, and so has the row appended. *)
Lemma short_results_text_accepted :
  fetched page_short = Ret (Some novo_short) /\
  List.length (numeros novo_short) = 3%nat /\
  List.length (estrelas novo_short) = 1%nat /\
  csv (snd (atualizar_resultados page_short header_only))
  = Some [header;
          ["1"; "2024-05-14"; "2024-05"; "1"; "2"; "3"; "4"; "3";
           Terca_Feira]].
Proof. repeat split; reflexivity. Qed.

Lemma empty_ledger_bootstrap_witness :
  csv header_only = Some [header] /\
  fetched page_14_may = Ret (Some novo_14_may) /\
  exists w',
    atualizar_resultados page_14_may header_only = (Ret tt, w') /\
    csv w' = Some [header; row_14_may].
Proof.
  split; [reflexivity|]. split; [reflexivity|].
  destruct (proj2 (proj2 empty_ledger_bootstrap) page_14_may novo_14_may
              header_only (or_intror eq_refl) eq_refl)
    as (outs & w' & E & C & _).
  exists w'. split; [exact E|exact C].
Defined.

Lemma import_from_csv_idempotent_witness :
  csv blank_world = None /\
  fst (import_from_csv blank_world) = Ret 0 /\
  db (snd (import_from_csv blank_world)) = db blank_world.
Proof.
  split; [reflexivity|].
  exact (proj2 (proj2 (proj2 (import_from_csv_idempotent blank_world)))
           eq_refl).
Defined.

Lemma category_defaults_to_terca_witness :
  Calendar.weekday (Calendar.mkdate 2024 5 15) <> 4 /\
  exists novo,
    fetched page_15_may = Ret (Some novo) /\
    sorteio_tipo novo = Terca_Feira.
Proof.
  assert (W : Calendar.weekday (Calendar.mkdate 2024 5 15) <> 4)
    by (vm_compute; discriminate).
  split; [exact W|].
  destruct (category_defaults_to_terca
              (sample_soup "Sorteio: 040/2024 Data do Sorteio - 15/05/2024"
                 "1 2 3 4 5 + 6 7")
              "Sorteio: 040/2024 Data do Sorteio - 15/05/2024"
              ["Chave"; "1 2 3 4 5 + 6 7"] "1 2 3 4 5 " " 6 7" 40 3
              (Calendar.mkdate 2024 5 15)
              eq_refl eq_refl eq_refl (le_n 2) eq_refl eq_refl)
    as (novo & F & _ & _ & T).
  exists novo. split; [exact F|exact (T W)].
Defined.

(** C9, as stated, fails: 15 May 2024 is a Wednesday; the fetch succeeds
    and the record is typed "Terça-Feira". *)
Lemma wednesday_typed_as_terca :
  Calendar.strftime_A (Calendar.mkdate 2024 5 15) = "Wednesday" /\
  fetched page_15_may = Ret (Some novo_15_may) /\
  sorteio_tipo novo_15_may = Terca_Feira.
Proof. repeat split; reflexivity. Qed.

Lemma blank_lines_after_header_ignored_witness :
  csv ledger_blank_lines = Some (header :: [[]; row_14_may; []; []]) /\
  ler_ultimo_sorteio ledger_blank_lines
  = (Ret (1, Some (Calendar.mkdate 2024 5 14), Some row_14_may),
     ledger_blank_lines).
Proof.
  split; [reflexivity|].
  exact (proj1 (proj2 (proj2 (blank_lines_after_header_ignored
                                ledger_blank_lines header
                                [[]; row_14_may; []; []] eq_refl)))
           row_14_may 1 (Calendar.mkdate 2024 5 14) "2024-05-14"
           eq_refl eq_refl eq_refl eq_refl).
Defined.

(** C10, as stated, fails: with a blank line in front of the header the
    header is read as the last record; the read goes through the error
    branch, which the same file without the blank line does not. *)
Lemma blank_line_before_header_faults :
  ler_ultimo_sorteio ledger_blank_first
  = (Ret (0, None, None), add_out [ErroLerCSV ValueError] ledger_blank_first)
  /\
  ler_ultimo_sorteio header_only = (Ret (0, None, None), header_only).
Proof. split; reflexivity. Qed.

(** ** Runs for the further properties *)

Lemma saved_record_is_read_back_witness :
  csv header_only = Some [header] /\
  Calendar.valid (data_sorteio novo_21_may) = true /\
  fst (ler_ultimo_sorteio (snd (salvar_novo_sorteio novo_21_may header_only)))
  = Ret (41, Some (Calendar.mkdate 2024 5 21),
         Some (row_of_dados novo_21_may)).
Proof.
  split; [reflexivity|]. split; [reflexivity|].
  destruct (saved_record_is_read_back novo_21_may header_only header []
              eq_refl eq_refl) as [_ E].
  rewrite E. reflexivity.
Defined.

Lemma headerless_ledger_loses_first_record_witness :
  csv ledger_no_line = Some [] /\
  csv (cycles [page_21_may; page_14_may] ledger_no_line)
  = Some ["1" :: tl (row_of_dados novo_21_may);
          "1" :: tl (row_of_dados novo_14_may)].
Proof.
  split; [reflexivity|].
  exact (proj2 (proj2 (headerless_ledger_loses_first_record
                         page_21_may page_14_may novo_21_may novo_14_may
                         ledger_no_line eq_refl eq_refl eq_refl))).
Defined.

Lemma malformed_tail_restarts_numbering_witness :
  Text.int "abc" = None /\
  csv (snd (atualizar_resultados page_14_may ledger_bad_number))
  = Some [header; row_14_may; ["abc"; "2024-05-21"];
          "1" :: tl (row_of_dados novo_14_may)].
Proof.
  split; [reflexivity|].
  exact (malformed_tail_restarts_numbering page_14_may novo_14_may
           ledger_bad_number header [row_14_may; ["abc"; "2024-05-21"]]
           ["abc"; "2024-05-21"] eq_refl eq_refl (or_introl eq_refl)
           eq_refl).
Defined.

Lemma repeated_page_appends_once_witness :
  csv blank_world <> Some [] /\
  csv (cycles [page_14_may; page_14_may] blank_world)
  = csv (cycles [page_14_may] blank_world).
Proof.
  assert (N : csv blank_world <> Some []) by (cbn; discriminate).
  split; [exact N|].
  exact (repeated_page_appends_once page_14_may blank_world N).
Defined.

Lemma cycles_only_append_witness :
  csv ledger_14_may = Some [header; row_14_may] /\
  exists added,
    csv (cycles [page_14_may; page_21_may; NoAnswer] ledger_14_may)
    = Some ([header; row_14_may] ++ added) /\
    (List.length added <= 3)%nat.
Proof.
  split; [reflexivity|].
  exact (cycles_only_append [page_14_may; page_21_may; NoAnswer]
           ledger_14_may [header; row_14_may] eq_refl).
Defined.

Lemma ledger_dates_increase_witness :
  csv header_only = Some [header] /\
  exists ds,
    date_column (cycles [page_21_may; page_14_may] header_only)
    = map Calendar.isoformat ds /\
    increasing ds.
Proof.
  split; [reflexivity|].
  destruct (ledger_dates_increase [page_21_may; page_14_may] header_only
              (or_intror eq_refl)) as (ds & E & I & _).
  exists ds. split; [exact E|exact I].
Defined.

Lemma accepted_cycle_rebuilds_mirror_witness :
  last_draw ledger_14_may
  = (1, Some (Calendar.mkdate 2024 5 14), Some row_14_may) /\
  fetched page_21_may = Ret (Some novo_21_may) /\
  exists rows,
    csv (snd (atualizar_resultados page_21_may ledger_14_may)) = Some rows /\
    fst (atualizar_resultados page_21_may ledger_14_may) = Ret tt.
Proof.
  split; [reflexivity|]. split; [reflexivity|].
  destruct (accepted_cycle_rebuilds_mirror page_21_may novo_21_may
              ledger_14_may 1 (Some (Calendar.mkdate 2024 5 14))
              (Some row_14_may) eq_refl eq_refl eq_refl)
    as (rows & C & _ & R & _).
  exists rows. split; [exact C|exact R].
Defined.

Lemma extractor_returns_none_iff_witness :
  404 <> 200 /\ fetched page_404 = Ret None.
Proof.
  assert (N : 404 <> 200) by lia.
  split; [exact N|].
  exact (proj2 (extractor_returns_none_iff 404 (mkSoup None None None))
           (or_introl N)).
Defined.

Lemma winner_count_never_negative_witness :
  fetched page_14_may = Ret (Some novo_14_may) /\
  0 <= numero_vencedores novo_14_may.
Proof.
  split; [reflexivity|].
  exact (proj1 (winner_count_never_negative page_14_may novo_14_may eq_refl)).
Defined.

Lemma only_second_item_is_read_witness :
  nth 1 ["Chave"; "1 2 3 4 5 + 6 7"] ""
  = nth 1 ["Ordem de sa"; "1 2 3 4 5 + 6 7"; "8 9"] "" /\
  fetched page_14_may = fetched (Response 200 soup_more_items).
Proof.
  split; [reflexivity|].
  exact (only_second_item_is_read 200
           (sample_soup "Sorteio: 039/2024 Data do Sorteio - 14/05/2024"
              "1 2 3 4 5 + 6 7")
           soup_more_items ["Chave"; "1 2 3 4 5 + 6 7"]
           ["Ordem de sa"; "1 2 3 4 5 + 6 7"; "8 9"]
           eq_refl eq_refl eq_refl eq_refl (le_n 2) (le_S 2 2 (le_n 2))
           eq_refl).
Defined.


Lemma header_without_markers_raises_witness :
  occurs "Sorteio: " (Text.strip "Resultados de 14/05/2024") = false /\
  fst (atualizar_resultados page_no_marker ledger_14_may) = Raise IndexError /\
  csv (snd (atualizar_resultados page_no_marker ledger_14_may))
  = csv ledger_14_may.
Proof.
  split; [reflexivity|].
  destruct (header_without_markers_raises
              (sample_soup "Resultados de 14/05/2024" "1 2 3 4 5 + 6 7")
              "Resultados de 14/05/2024" ledger_14_may eq_refl
              (or_introl eq_refl)) as (e & _ & E & _ & R & C).
  rewrite (E eq_refl) in R. split; [exact R|exact C].
Defined.

Lemma mirror_rebuilt_after_removal_witness :
  ledger_file disk_14_may = Some [header; row_14_may] /\
  read_frame [header; row_14_may] = Ret frame_14_may /\
  mirror_file (snd (on_disk import_from_csv (delete_database disk_14_may)))
  = Table frame_14_may.
Proof.
  assert (P : read_frame [header; row_14_may] = Ret frame_14_may)
    by reflexivity.
  split; [reflexivity|]. split; [exact P|].
  exact (proj1 (proj2 (proj2 (mirror_rebuilt_after_removal disk_14_may
                                [header; row_14_may] frame_14_may
                                eq_refl P)
                         (delete_database disk_14_may)
                         (or_intror eq_refl)))).
Defined.

Lemma view_shows_imported_table_witness :
  ledger_file disk_14_may = Some [header; row_14_may] /\
  fst (on_disk import_from_csv disk_14_may) = Ret 1 /\
  head_frame frame_14_may = frame_14_may.
Proof.
  assert (P : read_frame [header; row_14_may] = Ret frame_14_may)
    by reflexivity.
  split; [reflexivity|].
  destruct (view_shows_imported_table disk_14_may [header; row_14_may]
              frame_14_may eq_refl P) as (R & _ & T).
  split; [exact R|]. apply T. cbn. lia.
Defined.

Lemma only_option_5_writes_ledger_witness :
  ~ In "5" ["4"; "1"; "2"; "s"; "3"; "S"; "x"; "6"] /\
  ledger_file
    (snd (main_loop ["4"; "1"; "2"; "s"; "3"; "S"; "x"; "6"] site_may 0
            disk_14_may))
  = ledger_file disk_14_may.
Proof.
  assert (N : ~ In "5" ["4"; "1"; "2"; "s"; "3"; "S"; "x"; "6"]).
  { cbn. intros Q. repeat (destruct Q as [Q|Q]; [discriminate Q|]).
    exact Q. }
  split; [exact N|].
  exact (proj1 (only_option_5_writes_ledger
                  ["4"; "1"; "2"; "s"; "3"; "S"; "x"; "6"] site_may 0
                  disk_14_may N)).
Defined.

Lemma table_survives_without_confirmation_witness :
  (forall i, In i ["2"; "n"; "3"; "sim"; "5"; "4"; "6"] ->
             i <> "s" /\ i <> "S") /\
  exists df,
    mirror_file
      (snd (main_loop ["2"; "n"; "3"; "sim"; "5"; "4"; "6"] site_may 0
              disk_14_may))
    = Table df.
Proof.
  assert (N : forall i, In i ["2"; "n"; "3"; "sim"; "5"; "4"; "6"] ->
                        i <> "s" /\ i <> "S").
  { cbn. intros i Q.
    repeat (destruct Q as [Q|Q]; [subst i; split; discriminate|]).
    destruct Q. }
  split; [exact N|].
  exact (table_survives_without_confirmation
           ["2"; "n"; "3"; "sim"; "5"; "4"; "6"] site_may 0 disk_14_may
           frame_14_may N eq_refl).
Defined.

Lemma main_loop_endings_witness :
  fst (main_loop ["5"; "5"; "5"; "6"] site_may 0 disk_14_may)
  = Uncaught RequestException /\
  exists j, fetched (site_may j) = Raise RequestException.
Proof.
  assert (E : fst (main_loop ["5"; "5"; "5"; "6"] site_may 0 disk_14_may)
              = Uncaught RequestException) by reflexivity.
  split; [exact E|].
  exact (proj1 (main_loop_endings ["5"; "5"; "5"; "6"] site_may 0
                  disk_14_may) RequestException E).
Defined.

Lemma mirror_follows_ledger_witness :
  (forall rows : list Row, rows <> [] -> exists df, read_frame rows = Ret df)
  /\
  (db (cycles [page_14_may; page_no_plus; page_21_may] blank_world) = None \/
   exists rows df,
     csv (cycles [page_14_may; page_no_plus; page_21_may] blank_world)
     = Some rows /\
     read_frame rows = Ret df /\
     db (cycles [page_14_may; page_no_plus; page_21_may] blank_world)
     = Some df).
Proof.
  assert (Hp : forall rows : list Row,
             rows <> [] -> exists df, read_frame rows = Ret df).
  { intros [|cols rest] N; [now destruct N|]. cbn. eauto. }
  split; [exact Hp|].
  exact (mirror_follows_ledger [page_14_may; page_no_plus; page_21_may] Hp
           blank_world (or_introl eq_refl)).
Defined.
